(** * convert_html_to_png.py: the HTML-to-PNG conversion runner

    A shallow embedding of [docs/whitepaper/assets/convert_html_to_png.py]
    and the properties its specification states about it.

    The script is a straight-line module body.  It talks to three things
    outside itself: the file system (through [pathlib]), standard output
    (through [print]) and the third-party [html2image] package.  The file
    system and standard output are modelled as explicit state; the
    [html2image] package is not part of the repository and is taken as a
    parameter of the development. *)

From Stdlib Require Import ZArith Lia Ascii String.
From stdpp Require Import gmap strings list fin_maps pretty.

Local Open Scope Z_scope.

(** ** Python values *)

(** A decoded Python [str] holding file contents: its code points. *)
Abbreviation unicode := (list Z).

(** The exceptions that occur in the script.  [LibraryError] stands for
    whatever the [html2image] package raises. *)
Inductive exn : Type :=
  | FileNotFoundError
  | IsADirectoryError
  | UnicodeDecodeError
  | LibraryError (what : string).

(** *** [bytes.decode("utf-8")], strict error handling

    The decoder accepts exactly the well-formed sequences of the Unicode
    standard (table 3-7): no overlong forms, no surrogates, nothing above
    U+10FFFF, no truncated sequence. *)

Definition in_range (lo hi b : Z) : bool := (lo <=? b) && (b <=? hi).

Definition is_cont (b : Z) : bool := in_range 128 191 b.

Definition byte_val (b : Byte.byte) : Z := Z.of_N (Byte.to_N b).

Fixpoint utf8_decode_from (l : list Z) : option unicode :=
  match l with
  | [] => Some []
  | b0 :: r0 =>
    if b0 <? 128 then cons b0 <$> utf8_decode_from r0
    else if in_range 194 223 b0 then
      match r0 with
      | b1 :: r1 =>
        if is_cont b1
        then cons ((b0 - 192) * 64 + (b1 - 128)) <$> utf8_decode_from r1
        else None
      | _ => None
      end
    else if in_range 224 239 b0 then
      match r0 with
      | b1 :: b2 :: r2 =>
        let lo := if b0 =? 224 then 160 else 128 in
        let hi := if b0 =? 237 then 159 else 191 in
        if in_range lo hi b1 && is_cont b2
        then cons ((b0 - 224) * 4096 + (b1 - 128) * 64 + (b2 - 128))
               <$> utf8_decode_from r2
        else None
      | _ => None
      end
    else if in_range 240 244 b0 then
      match r0 with
      | b1 :: b2 :: b3 :: r3 =>
        let lo := if b0 =? 240 then 144 else 128 in
        let hi := if b0 =? 244 then 143 else 191 in
        if in_range lo hi b1 && is_cont b2 && is_cont b3
        then cons ((b0 - 240) * 262144 + (b1 - 128) * 4096
                   + (b2 - 128) * 64 + (b3 - 128))
               <$> utf8_decode_from r3
        else None
      | _ => None
      end
    else None
  end.

Definition utf8_decode (data : list Byte.byte) : option unicode :=
  utf8_decode_from (byte_val <$> data).

(** Text-mode reading with [newline=None]: CR LF and a lone CR become LF. *)
Fixpoint universal_newlines (s : unicode) : unicode :=
  match s with
  | [] => []
  | c :: t =>
    if c =? 13 then
      match t with
      | d :: t' => if d =? 10 then 10 :: universal_newlines t'
                   else 10 :: universal_newlines t
      | [] => [10]
      end
    else c :: universal_newlines t
  end.

(** *** [int / int] and the [.0f] format

    A finite non-negative binary64 value is [mant * 2 ^ expo].  Python's
    true division of two ints is correctly rounded (round half to even on
    the 53-bit significand).  The divisor in the script is the constant
    1024, a power of two, so the quotient is the dividend rounded to 53
    significant bits with the exponent lowered by 10. *)

Record pyfloat : Type := { mant : Z; expo : Z }.

Definition round_half_even (q num den : Z) : Z :=
  if (den <? 2 * num) || ((2 * num =? den) && Z.odd q) then q + 1 else q.

Definition true_div_1024 (a : Z) : pyfloat :=
  let sh := Z.max 0 (Z.log2 a - 52) in
  let q := Z.shiftr a sh in
  let r := Z.land a (Z.ones sh) in
  {| mant := round_half_even q r (2 ^ sh); expo := sh - 10 |}.

(** [format(x, ".0f")]: the decimal digits of [x] rounded to an integer,
    half to even on the exact binary value. *)
Definition round_0f (x : pyfloat) : Z :=
  if 0 <=? expo x then mant x * 2 ^ expo x
  else
    let d := 2 ^ (- expo x) in
    round_half_even (mant x / d) (mant x mod d) d.

Definition format_0f (x : pyfloat) : string := pretty (round_0f x).

(** ** [pathlib] on POSIX *)

Module pathlib.

(** A pure POSIX path: whether it is anchored at the root, and its
    components.  (A path written with exactly two leading slashes keeps
    them in [pathlib]; [resolve] collapses them, and every path the
    script uses goes through [resolve], so the root is a boolean here.) *)
Record PosixPath : Type := { is_abs : bool; parts : list string }.

Definition slash : ascii := "/"%char.

(** [s.split("/")] *)
Fixpoint split_slash (s : string) : list string :=
  match s with
  | EmptyString => [EmptyString]
  | String c t =>
    if Ascii.eqb c slash then EmptyString :: split_slash t
    else
      match split_slash t with
      | w :: ws => String c w :: ws
      | [] => [String c EmptyString]
      end
  end.

Definition is_component (w : string) : bool :=
  negb (String.eqb w "") && negb (String.eqb w ".").

(** [Path(s)]: empty and [.] components are dropped, [..] is kept. *)
Definition Path (s : string) : PosixPath :=
  {| is_abs := match s with
               | String c _ => Ascii.eqb c slash
               | EmptyString => false
               end;
     parts := List.filter is_component (split_slash s) |}.

(** [p.parent]: the path without its last component; the root and the
    empty path are their own parents. *)
Definition parent (p : PosixPath) : PosixPath :=
  {| is_abs := is_abs p; parts := removelast (parts p) |}.

(** [p / name] for a relative single-component [name]. *)
Definition joinpath (p : PosixPath) (name : string) : PosixPath :=
  {| is_abs := is_abs p; parts := parts p ++ [name] |}.

Fixpoint join_slash (ws : list string) : string :=
  match ws with
  | [] => ""
  | [w] => w
  | w :: ws' => w +:+ "/" +:+ join_slash ws'
  end.

(** [str(p)] *)
Definition str (p : PosixPath) : string :=
  if is_abs p then "/" +:+ join_slash (parts p)
  else match parts p with [] => "." | _ => join_slash (parts p) end.

Fixpoint normalize (acc : list string) (ws : list string) : list string :=
  match ws with
  | [] => acc
  | w :: ws' =>
    if String.eqb w ".." then normalize (removelast acc) ws'
    else normalize (acc ++ [w]) ws'
  end.

(** [p.resolve()] on a file system without symbolic links: the path is
    made absolute against the working directory and [..] components are
    folded away ([..] at the root stays at the root). *)
Definition resolve (cwd : string) (p : PosixPath) : PosixPath :=
  {| is_abs := true;
     parts := normalize (if is_abs p then [] else normalize [] (parts (Path cwd)))
                        (parts p) |}.

End pathlib.

Arguments pathlib.str : simpl never.

Notation "p // name" := (pathlib.joinpath p name)
  (at level 40, left associativity).


(** ** The world the script runs in *)

(** What a canonical absolute path name denotes.  Only the size of a
    directory is visible to the script. *)
Inductive node : Type :=
  | RegFile (data : list Byte.byte)
  | Directory (dir_size : N).

(** [os.stat(p).st_size] *)
Definition st_size (n : node) : Z :=
  match n with
  | RegFile data => Z.of_nat (length data)
  | Directory sz => Z.of_N sz
  end.

(** The arguments of the [Html2Image(...)] constructor call. *)
Record RenderConfig : Type := {
  browser : string;
  browser_executable : string;
  output_path : string;
  size : Z * Z;
  custom_flags : list string
}.

(** The calls the script makes on its environment, in program order. *)
Inductive event : Type :=
  | EvReadText (path : string)
  | EvHtml2Image (cfg : RenderConfig)
  | EvScreenshot (cfg : RenderConfig) (html_str : unicode) (save_as : string)
  | EvExists (path : string)
  | EvStat (path : string)
  | EvPrint (line : string).

(** The file system maps canonical absolute path names to nodes.  Every
    path the script hands to the operating system is built from the
    resolved script directory, hence canonical. *)
Record World : Type := {
  fs : gmap string node;
  stdout : string;
  trace : list event
}.

(** The [html2image] package, external to the repository: what its
    constructor and its [screenshot] method do to the file system, and what
    they return or raise.  A call that raises may still have changed the
    file system. *)
Record Html2ImageLib : Type := {
  hti_init : RenderConfig → gmap string node → (exn + unit) * gmap string node;
  hti_screenshot :
    RenderConfig → unicode → string → gmap string node →
    (exn + list string) * gmap string node
}.

(** How the interpreter was started: the value of [__file__] and the
    working directory. *)
Record Process : Type := { file__ : string; getcwd : string }.

(** ** Computations: state passing with unhandled exceptions *)

Definition M (A : Type) : Type := World → (exn + A) * World.

Definition raise {A} (e : exn) : M A := λ w, (inl e, w).

#[global] Instance M_ret : MRet M := λ A a w, (inr a, w).

#[global] Instance M_bind : MBind M := λ A B k m w,
  match m w with
  | (inr a, w') => k a w'
  | (inl e, w') => (inl e, w')
  end.

Definition add_event (e : event) (w : World) : World :=
  {| fs := fs w; stdout := stdout w; trace := trace w ++ [e] |}.

Definition set_fs (m : gmap string node) (w : World) : World :=
  {| fs := m; stdout := stdout w; trace := trace w |}.

Definition add_stdout (s : string) (w : World) : World :=
  {| fs := fs w; stdout := stdout w +:+ s; trace := trace w |}.

Definition log (e : event) : M unit := λ w, (inr tt, add_event e w).

Definition get_fs : M (gmap string node) := λ w, (inr (fs w), w).

Definition put_fs (m : gmap string node) : M unit := λ w, (inr tt, set_fs m w).

Definition newline : string := String "010"%char "".

Definition write_stdout (s : string) : M unit := λ w, (inr tt, add_stdout s w).

(** [print(s)] *)
Definition print (s : string) : M unit :=
  log (EvPrint s);; write_stdout (s +:+ newline).

(** The outcome of a module body, and the exit status the interpreter
    gives the process: 0 when the body ran to its end, 1 when an exception
    went unhandled. *)
Definition exit_status {A} (r : exn + A) : Z :=
  match r with
  | inr _ => 0
  | inl _ => 1
  end.

(** ** [pathlib] operations that touch the file system *)

(** [p.read_text(encoding="utf-8")] *)
Definition read_text_utf8 (p : pathlib.PosixPath) : M unicode :=
  log (EvReadText (pathlib.str p));;
  m ← get_fs;
  match m !! pathlib.str p with
  | None => raise FileNotFoundError
  | Some (Directory _) => raise IsADirectoryError
  | Some (RegFile data) =>
    match utf8_decode data with
    | None => raise UnicodeDecodeError
    | Some text => mret (universal_newlines text)
    end
  end.

(** [p.exists()] *)
Definition exists_ (p : pathlib.PosixPath) : M bool :=
  log (EvExists (pathlib.str p));;
  m ← get_fs;
  mret (bool_decide (is_Some (m !! pathlib.str p))).

(** [p.stat().st_size] *)
Definition stat_st_size (p : pathlib.PosixPath) : M Z :=
  log (EvStat (pathlib.str p));;
  m ← get_fs;
  match m !! pathlib.str p with
  | None => raise FileNotFoundError
  | Some n => mret (st_size n)
  end.

(** ** The script *)

Section Script.

Variable lib : Html2ImageLib.
Variable proc : Process.

(** [Html2Image(...)]: the object remembers its configuration. *)
Definition Html2Image (cfg : RenderConfig) : M RenderConfig :=
  log (EvHtml2Image cfg);;
  m ← get_fs;
  let '(r, m') := hti_init lib cfg m in
  put_fs m';;
  match r with
  | inl e => raise e
  | inr _ => mret cfg
  end.

(** [hti.screenshot(html_str=..., save_as=...)] *)
Definition screenshot (hti : RenderConfig) (html_str : unicode)
    (save_as : string) : M (list string) :=
  log (EvScreenshot hti html_str save_as);;
  m ← get_fs;
  let '(r, m') := hti_screenshot lib hti html_str save_as m in
  put_fs m';;
  match r with
  | inl e => raise e
  | inr paths => mret paths
  end.

Definition SCRIPT_DIR : pathlib.PosixPath :=
  pathlib.resolve (getcwd proc) (pathlib.parent (pathlib.Path (file__ proc))).
Definition HTML_FILE : pathlib.PosixPath := SCRIPT_DIR // "dao_vs_dee_diagram.html".
Definition OUTPUT_FILE : string := "dao_vs_dee_diagram.png".

Definition render_config : RenderConfig :=
  {| browser := "chrome";
     browser_executable :=
       "/Applications/Google Chrome.app/Contents/MacOS/Google Chrome";
     output_path := pathlib.str SCRIPT_DIR;
     size := (1400, 1100);
     custom_flags := ["--default-background-color=00000000";
                      "--hide-scrollbars"] |}.

Definition success_line (output_path : pathlib.PosixPath) (size_kb : pyfloat)
    : string :=
  "Success: " +:+ pathlib.str output_path
    +:+ " (" +:+ format_0f size_kb +:+ " KB)".

Definition error_line : string := "Error: PNG file was not created".

(** Lines 33 to 38: the existence check and the report.  [paths] is the
    value the [screenshot] call returned. *)
Definition report (paths : list string) : M unit :=
  let output_path := SCRIPT_DIR // OUTPUT_FILE in
  found ← exists_ output_path;
  if found : bool then
    sz ← stat_st_size output_path;
    let size_kb := true_div_1024 sz in
    print (success_line output_path size_kb)
  else
    print error_line.

(** Lines 13 to 31: everything up to the return of the [screenshot]
    call. *)
Definition render : M (list string) :=
  html_content ← read_text_utf8 HTML_FILE;
  hti ← Html2Image render_config;
  screenshot hti html_content OUTPUT_FILE.

(** The module body, lines 13 to 38. *)
Definition main : M unit :=
  html_content ← read_text_utf8 HTML_FILE;
  hti ← Html2Image render_config;
  paths ← screenshot hti html_content OUTPUT_FILE;
  report paths.

(** A run of the script on a file system: nothing printed yet, nothing
    called yet. *)
Definition initial (m : gmap string node) : World :=
  {| fs := m; stdout := ""; trace := [] |}.

Definition run (m : gmap string node) : (exn + unit) * World :=
  main (initial m).

End Script.

(** ** Renderers to run the script against

    Three behaviours of the external package, used to evaluate the script
    on concrete worlds. *)

Module posixpath.

Fixpoint endswith_slash (s : string) : bool :=
  match s with
  | EmptyString => false
  | String c EmptyString => Ascii.eqb c pathlib.slash
  | String _ t => endswith_slash t
  end.

Definition startswith_slash (s : string) : bool :=
  match s with
  | String c _ => Ascii.eqb c pathlib.slash
  | EmptyString => false
  end.

(** [os.path.join(a, b)] *)
Definition join (a b : string) : string :=
  if startswith_slash b then b
  else if String.eqb a "" || endswith_slash a then a +:+ b
  else a +:+ "/" +:+ b.

End posixpath.

(** A browser that writes [png] at the requested place and returns its
    name. *)
Definition writing_lib (png : list Byte.byte) : Html2ImageLib :=
  {| hti_init := λ _ m, (inr tt, m);
     hti_screenshot := λ cfg _ save_as m,
       let target := posixpath.join (output_path cfg) save_as in
       (inr [target], <[target := RegFile png]> m) |}.

(** A browser that runs and leaves nothing behind; it claims [claimed] as
    the files it produced. *)
Definition silent_lib (claimed : list string) : Html2ImageLib :=
  {| hti_init := λ _ m, (inr tt, m);
     hti_screenshot := λ _ _ _ m, (inr claimed, m) |}.

(** A browser executable that cannot be found. *)
Definition broken_lib : Html2ImageLib :=
  {| hti_init := λ _ m, (inl (LibraryError "browser executable not found"), m);
     hti_screenshot := λ _ _ _ m, (inl (LibraryError "no browser"), m) |}.

Definition sample_proc : Process :=
  {| file__ := "/repo/docs/whitepaper/assets/convert_html_to_png.py";
     getcwd := "/repo" |}.

Definition sample_html : list Byte.byte :=
  [Byte.x3c; Byte.x70; Byte.x3e; Byte.x68; Byte.x69; Byte.x3c; Byte.x2f;
   Byte.x70; Byte.x3e; Byte.x0a].

Definition sample_fs : gmap string node :=
  {[ "/repo/docs/whitepaper/assets/dao_vs_dee_diagram.html" := RegFile sample_html ]}.

Definition sample_png_name : string :=
  "/repo/docs/whitepaper/assets/dao_vs_dee_diagram.png".

(** A source file that is not UTF-8: the byte FF between the brackets. *)
Definition bad_utf8_fs : gmap string node :=
  {[ "/repo/docs/whitepaper/assets/dao_vs_dee_diagram.html"
       := RegFile [Byte.x3c; Byte.xff; Byte.x3e] ]}.

(** A rendering of 1000 bytes. *)
Definition png_1000 : list Byte.byte := repeat Byte.x00 1000.


(** ** Vocabulary for the properties *)

(** The pure part of [read_text]: what reading a directory entry gives. *)
Definition read_result (o : option node) : exn + unicode :=
  match o with
  | None => inl FileNotFoundError
  | Some (Directory _) => inl IsADirectoryError
  | Some (RegFile data) =>
    match utf8_decode data with
    | None => inl UnicodeDecodeError
    | Some text => inr (universal_newlines text)
    end
  end.

Definition is_construct (e : event) : bool :=
  match e with EvHtml2Image _ => true | _ => false end.

Definition is_screenshot (e : event) : bool :=
  match e with EvScreenshot _ _ _ => true | _ => false end.

Definition is_print (e : event) : bool :=
  match e with EvPrint _ => true | _ => false end.

(** The file-system calls of the script itself that name [p]. *)
Definition accesses (p : string) (e : event) : bool :=
  match e with
  | EvReadText q | EvExists q | EvStat q => String.eqb p q
  | _ => false
  end.

Definition is_read_of (p : string) (e : event) : bool :=
  match e with EvReadText q => String.eqb p q | _ => false end.

Definition count (f : event → bool) (t : list event) : nat :=
  length (List.filter f t).

(** The size in the success line as the code computes it, for sizes that a
    binary64 value holds exactly: [sz / 1024] rounded to the nearest
    integer, a tie going to the even neighbour. *)
Definition nearest_kb (sz : Z) : Z :=
  round_half_even (sz / 1024) (sz mod 1024) 1024.

(** The size in the success line as the specification words it: the
    kilobyte count truncated to an integer. *)
Definition spec_size_kb (sz : Z) : Z := sz / 1024.

Definition spec_success_line (output_path : pathlib.PosixPath) (sz : Z) : string :=
  "Success: " +:+ pathlib.str output_path
    +:+ " (" +:+ pretty (spec_size_kb sz) +:+ " KB)".

(** A renderer that touches no file but the one it is asked to produce:
    [os.path.join(output_path, save_as)]. *)
Definition writes_only_target (lib : Html2ImageLib) : Prop :=
  (∀ c m, (hti_init lib c m).2 = m) ∧
  (∀ c html name m p,
     p ≠ posixpath.join (output_path c) name →
     (hti_screenshot lib c html name m).2 !! p = m !! p).

(** A renderer that, whenever its [screenshot] call returns, has written
    the picture [png c html] of the text it was given at the place it was
    asked for, [os.path.join(output_path, save_as)], whatever was there
    before. *)
Definition writes_target (lib : Html2ImageLib)
    (png : RenderConfig → unicode → list Byte.byte) : Prop :=
  ∀ c html name m paths m',
    hti_screenshot lib c html name m = (inr paths, m') →
    m' !! posixpath.join (output_path c) name = Some (RegFile (png c html)).

Fixpoint no_slash (w : string) : bool :=
  match w with
  | EmptyString => true
  | String c t => negb (Ascii.eqb c pathlib.slash) && no_slash t
  end.

(** A path component as [Path] produces them: not empty, no slash. *)
Definition component (w : string) : Prop := w ≠ "" ∧ no_slash w = true.

(** [join_slash (ws ++ [w])] is this prefix followed by [w]. *)
Fixpoint dir_prefix (ws : list string) : string :=
  match ws with
  | [] => ""
  | w :: ws' => w +:+ "/" +:+ dir_prefix ws'
  end.

Section Traces.

Variable lib : Html2ImageLib.
Variable proc : Process.

Local Abbreviation html_name := (pathlib.str (HTML_FILE proc)).
Local Abbreviation out := (SCRIPT_DIR proc // OUTPUT_FILE).
Local Abbreviation out_name := (pathlib.str (SCRIPT_DIR proc // OUTPUT_FILE)).
Local Abbreviation cfg := (render_config proc).

(** The calls made up to each point of the body. *)
Definition t_read : list event := [EvReadText html_name].
Definition t_init : list event := t_read ++ [EvHtml2Image cfg].
Definition t_shot (html : unicode) : list event :=
  t_init ++ [EvScreenshot cfg html OUTPUT_FILE].
Definition t_check (html : unicode) : list event :=
  t_shot html ++ [EvExists out_name].
Definition t_missing (html : unicode) : list event :=
  t_check html ++ [EvPrint error_line].
Definition t_success (html : unicode) (line : string) : list event :=
  t_check html ++ [EvStat out_name; EvPrint line].

(** The step order of the specification's state machine, ReadSource,
    Render, CheckOutput, then one report, as a property of a trace. *)
Definition linear_order (t : list event) : Prop :=
  ∃ html, t = t_missing html ∨ ∃ line, t = t_success html line.

(** The four ways the rendering part can go, each with the world it
    leaves. *)
Inductive render_spec (m : gmap string node)
    : (exn + list string) * World → Prop :=
  | render_read_fault e :
      read_result (m !! html_name) = inl e →
      render_spec m (inl e, {| fs := m; stdout := ""; trace := t_read |})
  | render_init_fault html e m1 :
      read_result (m !! html_name) = inr html →
      hti_init lib cfg m = (inl e, m1) →
      render_spec m (inl e, {| fs := m1; stdout := ""; trace := t_init |})
  | render_shot_fault html m1 e m2 :
      read_result (m !! html_name) = inr html →
      hti_init lib cfg m = (inr tt, m1) →
      hti_screenshot lib cfg html OUTPUT_FILE m1 = (inl e, m2) →
      render_spec m (inl e, {| fs := m2; stdout := ""; trace := t_shot html |})
  | render_returned html m1 paths m2 :
      read_result (m !! html_name) = inr html →
      hti_init lib cfg m = (inr tt, m1) →
      hti_screenshot lib cfg html OUTPUT_FILE m1 = (inr paths, m2) →
      render_spec m (inr paths, {| fs := m2; stdout := ""; trace := t_shot html |}).

(** Every run, by cases: a fault in the rendering part, or a completed
    rendering followed by one of the two reports. *)
Inductive run_spec (m : gmap string node) : (exn + unit) * World → Prop :=
  | run_fault e w :
      render_spec m (inl e, w) →
      run_spec m (inl e, w)
  | run_missing html paths m2 :
      render_spec m (inr paths, {| fs := m2; stdout := ""; trace := t_shot html |}) →
      m2 !! out_name = None →
      run_spec m (inr tt, {| fs := m2; stdout := error_line +:+ newline;
                             trace := t_missing html |})
  | run_success html paths m2 n :
      render_spec m (inr paths, {| fs := m2; stdout := ""; trace := t_shot html |}) →
      m2 !! out_name = Some n →
      let line := success_line out (true_div_1024 (st_size n)) in
      run_spec m (inr tt, {| fs := m2; stdout := line +:+ newline;
                             trace := t_success html line |}).

End Traces.


(** ** Vocabulary for the further properties *)

(** A component of a resolved path: a [component] that is neither [.]
    nor [..]. *)
Definition canonical_component (w : string) : Prop :=
  component w ∧ w ≠ "." ∧ w ≠ "..".

(** A browser that starts and then fails to take the picture. *)
Definition crashing_lib : Html2ImageLib :=
  {| hti_init := λ _ m, (inr tt, m);
     hti_screenshot := λ _ _ _ m, (inl (LibraryError "renderer crashed"), m) |}.

(** The source path is a directory. *)
Definition dir_source_fs : gmap string node :=
  {[ "/repo/docs/whitepaper/assets/dao_vs_dee_diagram.html" := Directory 4096 ]}.

(** The source together with the artifact of an earlier run. *)
Definition stale_fs : gmap string node :=
  <[ sample_png_name := RegFile png_1000 ]> sample_fs.

(** A source with Windows line ends: [a CR LF b]. *)
Definition crlf_fs : gmap string node :=
  {[ "/repo/docs/whitepaper/assets/dao_vs_dee_diagram.html"
       := RegFile [Byte.x61; Byte.x0d; Byte.x0a; Byte.x62] ]}.

(** Two hypotheses on the result of the same call: merge them. *)
Ltac merge_calls :=
  repeat match goal with
  | H1 : ?x = _, H2 : ?x = _ |- _ => rewrite H1 in H2; simplify_eq
  end.

(** The quotient of [a] by 1024 when [a] has [k] bits too many for a
    binary64 significand: rounded once at [p = 2 ^ k] and once more at
    [d = 2 ^ (10 - k)].  Given the case lemma [cases] of the rounding, name
    both roundings and leave the rest to linear arithmetic. *)
Ltac two_roundings cases a k p d :=
  change (2 ^ k) with p;
  pose proof (Z.div_mod a p ltac:(lia));
  pose proof (Z.mod_pos_bound a p ltac:(lia));
  assert (0 ≤ a / p) by (apply Z.div_pos; lia);
  destruct (cases (a / p) (a mod p) p) as [[-> ?]|[-> ?]];
  match goal with
  | |- context [round_half_even (?x / d) _ _] =>
    pose proof (Z.div_mod x d ltac:(lia));
    pose proof (Z.mod_pos_bound x d ltac:(lia));
    assert (0 ≤ x / d) by (apply Z.div_pos; lia);
    destruct (cases (x / d) (x mod d) d) as [[-> ?]|[-> ?]]
  end;
  lia.

(** ** Proof automation over traces *)

(** Unfold the trace of a run and evaluate a count over it, leaving the
    path names folded. *)
Ltac count_events :=
  unfold count, t_success, t_missing, t_check, t_shot, t_init, t_read;
  cbn [List.filter app accesses is_construct is_screenshot is_print
       is_read_of fst snd trace fs stdout length].

(** Split a membership in an explicit trace into its cases, dropping
    the events of another kind. *)
Ltac in_trace H :=
  unfold t_success, t_missing, t_check, t_shot, t_init, t_read in H;
  cbn [app] in H;
  repeat (apply elem_of_cons in H as [H|H]; [try discriminate H|]);
  try (by apply elem_of_nil in H).

(** * Properties of the script *)

(** ** What each primitive does to the world *)

Lemma read_text_utf8_eq p w :
  read_text_utf8 p w =
  (read_result (fs w !! pathlib.str p), add_event (EvReadText (pathlib.str p)) w).
Proof.
  unfold read_text_utf8, read_result, mbind, M_bind, log, get_fs; simpl.
  destruct (fs w !! pathlib.str p) as [[data|sz]|]; try done.
  by destruct (utf8_decode data).
Qed.

Lemma exists_eq p w :
  exists_ p w =
  (inr (bool_decide (is_Some (fs w !! pathlib.str p))),
   add_event (EvExists (pathlib.str p)) w).
Proof. reflexivity. Qed.

Lemma stat_st_size_eq p w :
  stat_st_size p w =
  let w' := add_event (EvStat (pathlib.str p)) w in
  match fs w !! pathlib.str p with
  | None => (inl FileNotFoundError, w')
  | Some n => (inr (st_size n), w')
  end.
Proof.
  unfold stat_st_size, mbind, M_bind, log, get_fs; simpl.
  by destruct (fs w !! pathlib.str p).
Qed.

Lemma print_eq s w :
  print s w = (inr tt, add_stdout (s +:+ newline) (add_event (EvPrint s) w)).
Proof. reflexivity. Qed.

Section ScriptFacts.

Variable lib : Html2ImageLib.
Variable proc : Process.

Local Abbreviation html_name := (pathlib.str (HTML_FILE proc)).
Local Abbreviation out := (SCRIPT_DIR proc // OUTPUT_FILE).
Local Abbreviation out_name := (pathlib.str (SCRIPT_DIR proc // OUTPUT_FILE)).
Local Abbreviation cfg := (render_config proc).

Lemma Html2Image_eq c w :
  Html2Image lib c w =
  let w' := add_event (EvHtml2Image c) w in
  match hti_init lib c (fs w) with
  | (inl e, m') => (inl e, set_fs m' w')
  | (inr _, m') => (inr c, set_fs m' w')
  end.
Proof.
  unfold Html2Image, mbind, M_bind, log, get_fs; simpl.
  by destruct (hti_init lib c (fs w)) as [[e|[]] m'].
Qed.

Lemma screenshot_eq c html name w :
  screenshot lib c html name w =
  let w' := add_event (EvScreenshot c html name) w in
  match hti_screenshot lib c html name (fs w) with
  | (inl e, m') => (inl e, set_fs m' w')
  | (inr paths, m') => (inr paths, set_fs m' w')
  end.
Proof.
  unfold screenshot, mbind, M_bind, log, get_fs; simpl.
  by destruct (hti_screenshot lib c html name (fs w)) as [[e|paths] m'].
Qed.

(** The report, by cases on what is at the output path. *)
Lemma report_eq paths w :
  report proc paths w =
  let w1 := add_event (EvExists out_name) w in
  match fs w !! out_name with
  | Some n =>
    let line := success_line out (true_div_1024 (st_size n)) in
    (inr tt, add_stdout (line +:+ newline)
               (add_event (EvPrint line) (add_event (EvStat out_name) w1)))
  | None =>
    (inr tt, add_stdout (error_line +:+ newline)
               (add_event (EvPrint error_line) w1))
  end.
Proof.
  unfold report. unfold mbind at 1, M_bind at 1. rewrite exists_eq.
  destruct (fs w !! out_name) as [n|] eqn:Hout.
  - rewrite bool_decide_eq_true_2 by eauto.
    unfold mbind, M_bind. rewrite stat_st_size_eq. simpl. rewrite Hout.
    by rewrite print_eq.
  - rewrite bool_decide_eq_false_2 by (intros [? ?]; done).
    by rewrite print_eq.
Qed.

(** The body is the rendering followed by the report. *)
Lemma main_split w :
  main lib proc w = (paths ← render lib proc; report proc paths) w.
Proof.
  unfold main, render, mbind, M_bind.
  destruct (read_text_utf8 _ w) as [[e|html] w1]; [done|].
  by destruct (Html2Image _ _ w1) as [[e|hti] w2].
Qed.

Lemma render_render_spec m : render_spec lib proc m (render lib proc (initial m)).
Proof.
  unfold render, mbind at 1, M_bind at 1.
  rewrite read_text_utf8_eq. simpl fs.
  destruct (read_result (m !! html_name)) as [e|html] eqn:Hread.
  { by apply render_read_fault. }
  unfold mbind, M_bind. rewrite Html2Image_eq. simpl.
  destruct (hti_init lib cfg m) as [[e|[]] m1] eqn:Hinit.
  { by eapply render_init_fault. }
  rewrite screenshot_eq. simpl.
  destruct (hti_screenshot lib cfg html OUTPUT_FILE m1) as [[e|paths] m2] eqn:Hshot.
  - by eapply render_shot_fault.
  - by eapply render_returned.
Qed.

Lemma run_run_spec m : run_spec lib proc m (run lib proc m).
Proof.
  unfold run. rewrite main_split. unfold mbind, M_bind.
  pose proof (render_render_spec m) as Hr.
  destruct (render lib proc (initial m)) as [[e|paths] w].
  { by apply run_fault. }
  inversion Hr as [| | |html m1 paths' m2 Hread Hinit Hshot]; subst.
  rewrite report_eq. simpl.
  destruct (m2 !! out_name) as [n|] eqn:Hout.
  - by eapply run_success.
  - by eapply run_missing.
Qed.

End ScriptFacts.
(** ** Arithmetic of the size report *)

Lemma true_div_1024_exact a :
  0 ≤ a < 2 ^ 53 → true_div_1024 a = {| mant := a; expo := -10 |}.
Proof.
  intros [H0 H53]. unfold true_div_1024.
  assert (Z.log2 a ≤ 52) as Hlog.
  { destruct (decide (a = 0)) as [->|Hne]; [done|].
    assert (Z.log2 a < 53) by (apply Z.log2_lt_pow2; lia). lia. }
  rewrite Z.max_l by lia.
  rewrite Z.shiftr_0_r. change (Z.ones 0) with 0. rewrite Z.land_0_r.
  reflexivity.
Qed.

Lemma round_0f_exact a :
  0 ≤ a < 2 ^ 53 → round_0f (true_div_1024 a) = nearest_kb a.
Proof. intros H. by rewrite true_div_1024_exact. Qed.

Lemma nearest_kb_is_nearest sz :
  -512 ≤ 1024 * nearest_kb sz - sz ≤ 512.
Proof.
  unfold nearest_kb, round_half_even.
  pose proof (Z.div_mod sz 1024 ltac:(lia)) as Hdm.
  pose proof (Z.mod_pos_bound sz 1024 ltac:(lia)) as Hb.
  destruct (_ || _) eqn:Hc; [|lia].
  apply orb_true_iff in Hc as [Hc|Hc]; [lia|].
  apply andb_true_iff in Hc as [Hc _]. lia.
Qed.

Lemma nearest_kb_floor sz :
  sz / 1024 ≤ nearest_kb sz ≤ sz / 1024 + 1.
Proof. unfold nearest_kb, round_half_even. destruct (_ || _); lia. Qed.

Lemma st_size_nonneg n : 0 ≤ st_size n.
Proof. destruct n; simpl; lia. Qed.

(** ** Path names *)

Lemma append_cons c (s t : string) : String c s +:+ t = String c (s +:+ t).
Proof. reflexivity. Qed.

Lemma append_assoc (s1 s2 s3 : string) :
  (s1 +:+ s2) +:+ s3 = s1 +:+ s2 +:+ s3.
Proof.
  induction s1 as [|c s1 IH]; [done|]. by rewrite !append_cons, IH.
Qed.

Lemma join_slash_cons v l :
  l ≠ [] → pathlib.join_slash (v :: l) = v +:+ "/" +:+ pathlib.join_slash l.
Proof. by destruct l. Qed.

Lemma join_slash_snoc ws w :
  pathlib.join_slash (ws ++ [w]) = dir_prefix ws +:+ w.
Proof.
  induction ws as [|v ws IH]; [done|].
  rewrite <- app_comm_cons, join_slash_cons by (by destruct ws).
  rewrite IH. cbn [dir_prefix].
  by rewrite !append_assoc.
Qed.

Lemma dir_prefix_join ws :
  ws ≠ [] → dir_prefix ws = pathlib.join_slash ws +:+ "/".
Proof.
  induction ws as [|v ws IH]; [done|]. intros _.
  destruct ws as [|v' ws]; [done|].
  rewrite join_slash_cons by done.
  change (dir_prefix (v :: v' :: ws)) with (v +:+ "/" +:+ dir_prefix (v' :: ws)).
  rewrite IH by done. by rewrite !append_assoc.
Qed.

Lemma str_joinpath d w :
  pathlib.is_abs d = true →
  pathlib.str (d // w) = "/" +:+ dir_prefix (pathlib.parts d) +:+ w.
Proof.
  intros Habs. unfold pathlib.str, pathlib.joinpath. simpl.
  by rewrite Habs, join_slash_snoc.
Qed.

Lemma str_joinpath_inj d a b :
  pathlib.is_abs d = true → pathlib.str (d // a) = pathlib.str (d // b) → a = b.
Proof.
  intros Habs. rewrite !str_joinpath by done.
  intros H. by repeat apply (inj (String.append _)) in H.
Qed.

Lemma split_slash_no_slash s :
  Forall (λ w, no_slash w = true) (pathlib.split_slash s).
Proof.
  induction s as [|c s IH]; simpl.
  { by repeat constructor. }
  destruct (Ascii.eqb c pathlib.slash) eqn:Hc.
  { by constructor. }
  destruct (pathlib.split_slash s) as [|w ws].
  { repeat constructor. simpl. by rewrite Hc. }
  inversion IH as [|? ? Hw Hws]; subst.
  constructor; [|done]. simpl. by rewrite Hc, Hw.
Qed.

Lemma Path_components s : Forall component (pathlib.parts (pathlib.Path s)).
Proof.
  simpl. apply Forall_forall. intros w Hin.
  apply list_elem_of_In, filter_In in Hin as [Hin Hc].
  pose proof (split_slash_no_slash s) as Hall.
  rewrite Forall_forall in Hall.
  split; [|by apply Hall, list_elem_of_In].
  intros ->. done.
Qed.

Lemma removelast_Forall {A} (P : A → Prop) l :
  Forall P l → Forall P (removelast l).
Proof.
  induction 1 as [|x l Hx Hl IH]; [done|].
  simpl. destruct l; [done|]. by constructor.
Qed.

Lemma normalize_Forall (P : string → Prop) ws acc :
  Forall P acc → Forall P ws → Forall P (pathlib.normalize acc ws).
Proof.
  intros Hacc Hws. revert acc Hacc.
  induction Hws as [|w ws Hw Hws IH]; intros acc Hacc; [done|].
  simpl. destruct (String.eqb w "..").
  - by apply IH, removelast_Forall.
  - apply IH, Forall_app. by split; [|constructor].
Qed.

Lemma resolve_components cwd p :
  Forall component (pathlib.parts p) →
  Forall component (pathlib.parts (pathlib.resolve cwd p)).
Proof.
  intros Hp. unfold pathlib.resolve. cbn [pathlib.parts].
  apply normalize_Forall; [|done].
  destruct (pathlib.is_abs p); [done|].
  apply normalize_Forall; [done|]. apply Path_components.
Qed.

Section ScriptDir.
Variable proc : Process.
Lemma SCRIPT_DIR_components : Forall component (pathlib.parts (SCRIPT_DIR proc)).
Proof.
apply resolve_components. apply removelast_Forall, Path_components.
Qed.

Lemma SCRIPT_DIR_abs : pathlib.is_abs (SCRIPT_DIR proc) = true.
Proof. reflexivity. Qed.
End ScriptDir.

Lemma endswith_slash_append (a b : string) :
  b ≠ "" → posixpath.endswith_slash (a +:+ b) = posixpath.endswith_slash b.
Proof.
  intros Hb. induction a as [|c a IH]; [done|].
  rewrite append_cons. simpl. rewrite IH.
  destruct (a +:+ b) eqn:Hab; [|done].
  destruct a; [done|]. by rewrite append_cons in Hab.
Qed.

Lemma no_slash_endswith w : no_slash w = true → posixpath.endswith_slash w = false.
Proof.
  induction w as [|c w IH]; [done|]. simpl.
  intros [Hc Hw]%andb_true_iff. destruct w; [by apply negb_true_iff|]. by apply IH.
Qed.

Lemma join_slash_endswith ws :
  Forall component ws → posixpath.endswith_slash (pathlib.join_slash ws) = false.
Proof.
  induction 1 as [|w ws [Hne Hw] Hws IH]; [done|].
  destruct ws as [|v ws]; [by apply no_slash_endswith|].
  rewrite join_slash_cons by done.
  rewrite endswith_slash_append.
  2:{ done. }
  rewrite endswith_slash_append; [done|].
  inversion Hws as [|? ? [Hv _] _]; subst.
  destruct ws; simpl; [done|]. destruct v; [done|]. by rewrite append_cons.
Qed.
(** The file the renderer is asked for is the file the script looks at. *)
Lemma posixpath_join_str d name :
  pathlib.is_abs d = true →
  Forall component (pathlib.parts d) →
  posixpath.startswith_slash name = false →
  posixpath.join (pathlib.str d) name = pathlib.str (d // name).
Proof.
  intros Habs Hd Hname. rewrite str_joinpath by done.
  unfold posixpath.join, pathlib.str. rewrite Hname, Habs.
  destruct (pathlib.parts d) as [|w ws] eqn:Hps; [done|].
  rewrite dir_prefix_join by done.
  assert (posixpath.endswith_slash ("/" +:+ pathlib.join_slash (w :: ws)) = false) as ->.
  { rewrite endswith_slash_append; [by apply join_slash_endswith|].
    inversion Hd as [|? ? [Hw _] _]; subst.
    destruct ws; simpl; [done|]. destruct w; [done|]. by rewrite append_cons. }
  by rewrite !append_assoc.
Qed.

(** ** The decoder on familiar inputs *)

Lemma utf8_decode_from_ascii l :
  Forall (λ b, 0 ≤ b < 128) l → utf8_decode_from l = Some l.
Proof.
  induction 1 as [|b l Hb Hl IH]; [done|].
  simpl. rewrite (proj2 (Z.ltb_lt b 128)) by lia. by rewrite IH.
Qed.

(** U+00E9 and U+20AC decode; a lone FF, an overlong slash, an encoded
    surrogate and a truncated sequence do not. *)
Example utf8_decode_accepts :
  utf8_decode [Byte.xc3; Byte.xa9; Byte.xe2; Byte.x82; Byte.xac] = Some [233; 8364].
Proof. reflexivity. Qed.

Example utf8_decode_rejects :
  utf8_decode [Byte.xff] = None
  ∧ utf8_decode [Byte.xc0; Byte.xaf] = None
  ∧ utf8_decode [Byte.xed; Byte.xa0; Byte.x80] = None
  ∧ utf8_decode [Byte.xe2; Byte.x82] = None.
Proof. by repeat split. Qed.

(** Above 2^53 the quotient is rounded twice, once to binary64 and once
    to an integer, and can leave the nearest integer. *)
Example round_0f_double_rounding :
  round_0f (true_div_1024 (2 ^ 53 + 1535)) = 2 ^ 43 + 2
  ∧ nearest_kb (2 ^ 53 + 1535) = 2 ^ 43 + 1.
Proof. by split. Qed.

(** ** The claims of the specification *)

Section Claims.

Variable lib : Html2ImageLib.
Variable proc : Process.

Local Abbreviation html_name := (pathlib.str (HTML_FILE proc)).
Local Abbreviation out := (SCRIPT_DIR proc // OUTPUT_FILE).
Local Abbreviation out_name := (pathlib.str (SCRIPT_DIR proc // OUTPUT_FILE)).
Local Abbreviation cfg := (render_config proc).

(** When the rendering part returns, the run is its world followed by
    the report. *)
Lemma run_after_render m paths w2 :
  render lib proc (initial m) = (inr paths, w2) →
  run lib proc m = report proc paths w2 ∧ stdout w2 = ""
  ∧ ∃ html, trace w2 = t_shot proc html
            ∧ read_result (m !! html_name) = inr html.
Proof.
  intros Hr. split.
  { unfold run. rewrite main_split. unfold mbind, M_bind. by rewrite Hr. }
  pose proof (render_render_spec lib proc m) as Hs. rewrite Hr in Hs.
  inversion Hs; subst. eauto.
Qed.

(** C1. Whenever the render call returns and no file exists at the
    expected output path, the script prints the line
    "Error: PNG file was not created" to standard output, runs to its
    end, and the exit status is 0: the failed existence check does not
    alter the exit status. *)
Theorem C1_missing_output_prints_error_exit_0 m paths w2 :
  render lib proc (initial m) = (inr paths, w2) →
  fs w2 !! out_name = None →
  stdout (run lib proc m).2 = "Error: PNG file was not created" +:+ newline
  ∧ (run lib proc m).1 = inr tt
  ∧ exit_status (run lib proc m).1 = 0
  ∧ fs (run lib proc m).2 = fs w2.
Proof.
  intros Hr Hout.
  destruct (run_after_render m paths w2 Hr) as (-> & Hstd & _).
  rewrite report_eq. simpl. rewrite Hout. simpl.
  unfold add_stdout. simpl. by rewrite Hstd.
Qed.

(** C2 (as amended). Whenever the output file exists after the render
    call and its size is below 2^53 bytes, the script prints
    "Success: <path> (<N> KB)" where <path> is the resolved output path
    and N is the byte size divided by 1024 and rounded to the nearest
    integer, a tie going to the even integer; N is the floor of
    size/1024 or one more. *)
Theorem C2_success_line_rounds_to_nearest m paths w2 n :
  render lib proc (initial m) = (inr paths, w2) →
  fs w2 !! out_name = Some n →
  st_size n < 2 ^ 53 →
  stdout (run lib proc m).2
    = "Success: " +:+ out_name
        +:+ " (" +:+ pretty (nearest_kb (st_size n)) +:+ " KB)" +:+ newline
  ∧ -512 ≤ 1024 * nearest_kb (st_size n) - st_size n ≤ 512
  ∧ st_size n / 1024 ≤ nearest_kb (st_size n) ≤ st_size n / 1024 + 1.
Proof.
  intros Hr Hout Hsz.
  destruct (run_after_render m paths w2 Hr) as (-> & Hstd & _).
  split; [|split; [apply nearest_kb_is_nearest|apply nearest_kb_floor]].
  rewrite report_eq. simpl. rewrite Hout. simpl.
  unfold add_stdout. simpl. rewrite Hstd. unfold success_line, format_0f.
  rewrite round_0f_exact by (pose proof (st_size_nonneg n); lia).
  simpl. by rewrite !append_assoc.
Qed.

Lemma names_differ : html_name ≠ out_name.
Proof.
  intros H. by apply str_joinpath_inj in H.
Qed.

Lemma out_neq_html : String.eqb out_name html_name = false.
Proof. apply String.eqb_neq. intros H. by apply names_differ. Qed.

Lemma html_neq_out : String.eqb html_name out_name = false.
Proof. apply String.eqb_neq, names_differ. Qed.

Lemma run_read_fault m e :
  read_result (m !! html_name) = inl e →
  run lib proc m = (inl e, {| fs := m; stdout := ""; trace := t_read proc |}).
Proof.
  intros H. unfold run. rewrite main_split.
  unfold render, mbind, M_bind. rewrite read_text_utf8_eq. simpl.
  by rewrite H.
Qed.

(** C3. If the source HTML file does not exist, the run ends in an
    unhandled [FileNotFoundError] with a non-zero exit status; the only
    call made is the read of the source, so the renderer is neither
    constructed nor invoked, the existence check is not reached, and
    the file system, the output PNG included, is as it was. *)
Theorem C3_missing_source_aborts_before_render m :
  m !! html_name = None →
  (run lib proc m).1 = inl FileNotFoundError
  ∧ exit_status (run lib proc m).1 ≠ 0
  ∧ trace (run lib proc m).2 = [EvReadText html_name]
  ∧ count is_construct (trace (run lib proc m).2) = 0%nat
  ∧ count is_screenshot (trace (run lib proc m).2) = 0%nat
  ∧ count (accesses out_name) (trace (run lib proc m).2) = 0%nat
  ∧ stdout (run lib proc m).2 = ""
  ∧ fs (run lib proc m).2 = m.
Proof.
  intros H. rewrite (run_read_fault m FileNotFoundError) by (by rewrite H).
  repeat split; try done.
  count_events. by rewrite out_neq_html.
Qed.

(** C9. If the source file exists but its bytes are not valid UTF-8,
    the run ends in an unhandled [UnicodeDecodeError] with a non-zero
    exit status; the only call made is the read of the source, so the
    renderer is never constructed or invoked, and the file system is as
    it was: no output file is created. *)
Theorem C9_undecodable_source_aborts_before_render m data :
  m !! html_name = Some (RegFile data) →
  utf8_decode data = None →
  (run lib proc m).1 = inl UnicodeDecodeError
  ∧ exit_status (run lib proc m).1 ≠ 0
  ∧ trace (run lib proc m).2 = [EvReadText html_name]
  ∧ count is_construct (trace (run lib proc m).2) = 0%nat
  ∧ count is_screenshot (trace (run lib proc m).2) = 0%nat
  ∧ stdout (run lib proc m).2 = ""
  ∧ fs (run lib proc m).2 = m.
Proof.
  intros H Hdec.
  rewrite (run_read_fault m UnicodeDecodeError) by (by rewrite H; simpl; rewrite Hdec).
  by repeat split.
Qed.

(** The calls of any run are an initial segment of one of the two
    complete sequences. *)
Lemma run_trace_prefix m :
  ∃ html,
    trace (run lib proc m).2 `prefix_of` t_missing proc html
    ∨ ∃ line, trace (run lib proc m).2 `prefix_of` t_success proc html line.
Proof.
  destruct (run_run_spec lib proc m)
    as [e w Hr|html paths m2 Hr Hout|html paths m2 n Hr Hout]; simpl.
  - inversion Hr as [e' Hread|html e' m1 Hread Hinit
                     |html m1 e' m2 Hread Hinit Hshot|]; subst; simpl.
    + exists []. left.
      by exists [EvHtml2Image cfg; EvScreenshot cfg [] OUTPUT_FILE;
                 EvExists out_name; EvPrint error_line].
    + exists html. left.
      by exists [EvScreenshot cfg html OUTPUT_FILE; EvExists out_name;
                 EvPrint error_line].
    + exists html. left. by exists [EvExists out_name; EvPrint error_line].
  - exists html. left. by exists [].
  - exists html. right. eexists. by exists [].
Qed.

Lemma elem_of_prefix (e : event) t1 t2 : t1 `prefix_of` t2 → e ∈ t1 → e ∈ t2.
Proof. intros [k ->] Hin. apply elem_of_app. by left. Qed.

Lemma count_app f t1 t2 : count f (t1 ++ t2) = (count f t1 + count f t2)%nat.
Proof. unfold count. by rewrite List.filter_app, length_app. Qed.

Lemma count_prefix f t1 t2 : t1 `prefix_of` t2 → (count f t1 ≤ count f t2)%nat.
Proof. intros [k ->]. rewrite count_app. lia. Qed.

(** Whatever is true of every call of the two complete sequences is
    true of every call of every run. *)
Lemma run_trace_forall (P : event → Prop) m :
  (∀ html e, e ∈ t_missing proc html → P e) →
  (∀ html line e, e ∈ t_success proc html line → P e) →
  ∀ e, e ∈ trace (run lib proc m).2 → P e.
Proof.
  intros Hmiss Hsucc e Hin.
  destruct (run_trace_prefix m) as [html [Hp|[line Hp]]].
  - eapply Hmiss, elem_of_prefix; eauto.
  - eapply Hsucc, elem_of_prefix; eauto.
Qed.

(** A bound on a count over the two complete sequences bounds it over
    every run. *)
Lemma run_count_le f k m :
  (∀ html, count f (t_missing proc html) ≤ k)%nat →
  (∀ html line, count f (t_success proc html line) ≤ k)%nat →
  (count f (trace (run lib proc m).2) ≤ k)%nat.
Proof.
  intros Hmiss Hsucc.
  destruct (run_trace_prefix m) as [html [Hp|[line Hp]]].
  - etrans; [by apply count_prefix|]. apply Hmiss.
  - etrans; [by apply count_prefix|]. apply Hsucc.
Qed.

(** C4. In every run, each construction of the renderer and each
    screenshot call carries exactly this configuration: browser
    "chrome", the fixed executable path, the script's own directory as
    output directory, a 1400 x 1100 viewport and the two flags
    --default-background-color=00000000 and --hide-scrollbars.  It is
    constructed at most once in any run, and exactly once in every run
    that reads its source. *)
Theorem C4_render_configuration_fixed m :
  let t := trace (run lib proc m).2 in
  let fixed :=
    {| browser := "chrome";
       browser_executable :=
         "/Applications/Google Chrome.app/Contents/MacOS/Google Chrome";
       output_path := pathlib.str (SCRIPT_DIR proc);
       size := (1400, 1100);
       custom_flags := ["--default-background-color=00000000";
                        "--hide-scrollbars"] |} in
  (∀ c, EvHtml2Image c ∈ t → c = fixed)
  ∧ (∀ c html name, EvScreenshot c html name ∈ t → c = fixed)
  ∧ (count is_construct t ≤ 1)%nat
  ∧ (∀ html, read_result (m !! html_name) = inr html →
             count is_construct t = 1%nat).
Proof.
  intros t fixed. subst t. repeat split.
  - intros c Hin.
    apply (run_trace_forall (λ e, ∀ c, e = EvHtml2Image c → c = fixed) m)
      with (e := EvHtml2Image c); [| |done|done].
    + intros html e He c' ->. in_trace He. by injection He as ->.
    + intros html line e He c' ->. in_trace He. by injection He as ->.
  - intros c html name Hin.
    apply (run_trace_forall
             (λ e, ∀ c html name, e = EvScreenshot c html name → c = fixed) m)
      with (e := EvScreenshot c html name) (html := html) (name := name);
      [| |done|done].
    + intros h e He c' h' s' ->. in_trace He. by injection He as -> _ _.
    + intros h line e He c' h' s' ->. in_trace He. by injection He as -> _ _.
  - apply run_count_le; intros; count_events; lia.
  - intros html Hread.
    destruct (run_run_spec lib proc m)
      as [e w Hr|h paths m2 Hr Hout|h paths m2 n Hr Hout];
      [inversion Hr; subst|..]; count_events; congruence.
Qed.


(** A screenshot call in the trace of a run carries the fixed
    configuration, the decoded source, and the fixed file name. *)
Lemma screenshot_event_inv m c html name :
  EvScreenshot c html name ∈ trace (run lib proc m).2 →
  c = cfg ∧ name = OUTPUT_FILE ∧ read_result (m !! html_name) = inr html.
Proof.
  destruct (run_run_spec lib proc m)
    as [e w Hr|h paths m2 Hr Hout|h paths m2 n Hr Hout];
    [inversion Hr; subst|inversion Hr; subst..]; cbn [snd trace];
    intros Hin; in_trace Hin; by injection Hin as -> -> ->.
Qed.

(** C8 (as amended). The calls of every run are an initial segment of
    the linear order ReadSource, Render, CheckOutput, then one report,
    cut short only by an unhandled fault while reading or rendering.  No
    run invokes the screenshot capability or reports more than once.  A
    run that ends normally performs the whole sequence: one read, then
    one construction and one screenshot call, then one existence check,
    then exactly one of the two reports.  A run that ends in a fault
    reports nothing and does not reach the existence check. *)
Theorem C8_linear_order_up_to_fault m :
  let r := run lib proc m in
  let t := trace r.2 in
  (∃ html, t `prefix_of` t_missing proc html
           ∨ ∃ line, t `prefix_of` t_success proc html line)
  ∧ (count is_screenshot t ≤ 1)%nat
  ∧ (count is_print t ≤ 1)%nat
  ∧ (r.1 = inr tt →
     linear_order proc t
     ∧ count is_screenshot t = 1%nat ∧ count is_print t = 1%nat)
  ∧ (∀ e, r.1 = inl e →
     count is_print t = 0%nat ∧ count (accesses out_name) t = 0%nat).
Proof.
  intros r t. subst r t. split; [apply run_trace_prefix|].
  split; [apply run_count_le; intros; count_events; lia|].
  split; [apply run_count_le; intros; count_events; lia|].
  destruct (run_run_spec lib proc m)
    as [e w Hr|h paths m2 Hr Hout|h paths m2 n Hr Hout]; cbn [fst snd trace].
  - split; [done|]. intros e' _.
    inversion Hr; subst; count_events; by rewrite out_neq_html.
  - split; [|done]. intros _. split; [|by count_events].
    exists h. by left.
  - split; [|done]. intros _. split; [|by count_events].
    exists h. right. by eexists.
Qed.

(** C10. In every run the script's own file-system calls name the source
    HTML file exactly once, and that call is the read; the existence
    check and the size query are on another file.  The script itself
    writes nothing: with a renderer that touches no file but its target,
    every file other than the output PNG, the source included, is after
    the run what it was before. *)
Theorem C10_source_read_once_never_written m :
  let r := run lib proc m in
  count (accesses html_name) (trace r.2) = 1%nat
  ∧ count (is_read_of html_name) (trace r.2) = 1%nat
  ∧ (∀ p, EvReadText p ∈ trace r.2 → p = html_name)
  ∧ html_name ≠ out_name
  ∧ (writes_only_target lib →
     (∀ p, p ≠ out_name → fs r.2 !! p = m !! p)
     ∧ fs r.2 !! html_name = m !! html_name).
Proof.
  intros r. subst r.
  assert (posixpath.join (output_path cfg) OUTPUT_FILE = out_name) as Htarget.
  { apply posixpath_join_str; [done|apply SCRIPT_DIR_components|done]. }
  split; [|split; [|split; [|split; [apply names_differ|]]]].
  - destruct (run_run_spec lib proc m)
      as [e w Hr|h paths m2 Hr Hout|h paths m2 n Hr Hout];
      [inversion Hr; subst|..]; count_events;
      by rewrite ?String.eqb_refl, ?html_neq_out.
  - destruct (run_run_spec lib proc m)
      as [e w Hr|h paths m2 Hr Hout|h paths m2 n Hr Hout];
      [inversion Hr; subst|..]; count_events;
      by rewrite ?String.eqb_refl.
  - intros p Hin.
    apply (run_trace_forall (λ e, ∀ p, e = EvReadText p → p = html_name) m)
      with (e := EvReadText p); [| |done|done].
    + intros h e He p' ->. in_trace He. by injection He as ->.
    + intros h line e He p' ->. in_trace He. by injection He as ->.
  - intros [Hinit Hshot].
    assert (∀ p, p ≠ out_name → fs (run lib proc m).2 !! p = m !! p) as Hframe.
    { intros p Hp. rewrite <- Htarget in Hp.
      destruct (run_run_spec lib proc m)
        as [e w Hr|h paths m2 Hr Hout|h paths m2 n Hr Hout];
        inversion Hr as [|? ? m1 ? Hi|? m1 ? ? ? Hi Hs|? m1 ? ? ? Hi Hs];
        subst; cbn [snd fs]; try done;
        pose proof (Hinit cfg m) as Hm; rewrite Hi in Hm; cbn [snd] in Hm;
        subst m1; try done;
        match goal with
        | Hs : hti_screenshot lib cfg ?html _ _ = _ |- _ =>
          specialize (Hshot cfg html OUTPUT_FILE m p Hp);
          by rewrite Hs in Hshot
        end. }
    split; [done|]. apply Hframe, names_differ.
Qed.

Lemma exists_event_inv m p :
  EvExists p ∈ trace (run lib proc m).2 → p = out_name.
Proof.
  intros Hin.
  apply (run_trace_forall (λ e, ∀ p, e = EvExists p → p = out_name) m)
    with (e := EvExists p); [| |done|done].
  - intros h e He p' ->. in_trace He. by injection He as ->.
  - intros h line e He p' ->. in_trace He. by injection He as ->.
Qed.

(** After a rendering that returned, the report leaves the file system
    alone and the run ends normally. *)
Lemma run_after_render_fs m paths w2 :
  render lib proc (initial m) = (inr paths, w2) →
  (run lib proc m).1 = inr tt ∧ fs (run lib proc m).2 = fs w2.
Proof.
  intros Hr. destruct (run_after_render m paths w2 Hr) as (-> & _).
  rewrite report_eq. cbn zeta. by destruct (fs w2 !! out_name).
Qed.

(** A rendering that returned: the source was read, the constructor
    returned, and the screenshot call returned the paths and left the
    file system of the resulting world. *)
Lemma render_returned_inv m paths w2 :
  render lib proc (initial m) = (inr paths, w2) →
  ∃ html m1,
    read_result (m !! html_name) = inr html
    ∧ hti_init lib cfg m = (inr tt, m1)
    ∧ hti_screenshot lib cfg html OUTPUT_FILE m1 = (inr paths, fs w2)
    ∧ stdout w2 = "".
Proof.
  intros Hr. pose proof (render_render_spec lib proc m) as Hs.
  rewrite Hr in Hs. inversion Hs; subst. eauto 10.
Qed.

(** With a renderer that writes its target, a run whose rendering returns
    ends with the new picture at the output path and reports its size,
    whatever the file system held before. *)
Lemma run_replaces_output png m paths w2 :
  writes_target lib png →
  render lib proc (initial m) = (inr paths, w2) →
  ∃ html,
    read_result (m !! html_name) = inr html
    ∧ fs (run lib proc m).2 !! out_name = Some (RegFile (png cfg html))
    ∧ stdout (run lib proc m).2
      = success_line out (true_div_1024 (st_size (RegFile (png cfg html))))
          +:+ newline.
Proof.
  intros Hw Hr.
  destruct (render_returned_inv m paths w2 Hr)
    as (html & m1 & Hread & _ & Hshot & Hstd).
  apply Hw in Hshot.
  change (output_path cfg) with (pathlib.str (SCRIPT_DIR proc)) in Hshot.
  rewrite posixpath_join_str in Hshot
    by (done || apply SCRIPT_DIR_components).
  exists html. split; [done|].
  destruct (run_after_render m paths w2 Hr) as (-> & _).
  rewrite report_eq. cbn zeta. rewrite Hshot.
  cbn [fst snd add_stdout add_event stdout fs]. by rewrite Hshot, Hstd.
Qed.

End Claims.

Section TwoRuns.

Variables lib1 lib2 : Html2ImageLib.
Variable proc : Process.

Local Abbreviation html_name := (pathlib.str (HTML_FILE proc)).
Local Abbreviation out := (SCRIPT_DIR proc // OUTPUT_FILE).
Local Abbreviation out_name := (pathlib.str (SCRIPT_DIR proc // OUTPUT_FILE)).

(** C6. Two runs of the script, on any two file systems and whatever the
    renderer does, check the same output path, the fixed file name in
    the script's directory, and ask the renderer for that same file with
    the same configuration; when the source is the same in both, the
    text handed to the renderer is the same too.  Nothing in the script
    depends on an earlier artifact: after a run whose rendering returns,
    the file system is the one the renderer left.  So with a renderer
    that writes its target, a run whose rendering returns ends with the
    new picture at the output path and reports its size, whatever file
    was there before: a prior artifact is overwritten.  And two such runs
    on the same source leave the same file at the output path and print
    the same line, whatever the rest of the two file systems: re-running
    is idempotent in effect. *)
Theorem C6_output_path_deterministic m1 m2 :
  let t1 := trace (run lib1 proc m1).2 in
  let t2 := trace (run lib2 proc m2).2 in
  (∀ p, EvExists p ∈ t1 ∨ EvExists p ∈ t2 →
        p = pathlib.str (SCRIPT_DIR proc // "dao_vs_dee_diagram.png"))
  ∧ (∀ c1 h1 s1 c2 h2 s2,
       EvScreenshot c1 h1 s1 ∈ t1 → EvScreenshot c2 h2 s2 ∈ t2 →
       c1 = c2 ∧ s1 = s2
       ∧ posixpath.join (output_path c1) s1 = out_name
       ∧ (m1 !! html_name = m2 !! html_name → h1 = h2))
  ∧ (∀ paths w,
       render lib2 proc (initial m2) = (inr paths, w) →
       (run lib2 proc m2).1 = inr tt ∧ fs (run lib2 proc m2).2 = fs w)
  ∧ (∀ png paths w,
       writes_target lib2 png →
       render lib2 proc (initial m2) = (inr paths, w) →
       ∃ html,
         read_result (m2 !! html_name) = inr html
         ∧ fs (run lib2 proc m2).2 !! out_name
           = Some (RegFile (png (render_config proc) html))
         ∧ stdout (run lib2 proc m2).2
           = success_line out
               (true_div_1024
                  (st_size (RegFile (png (render_config proc) html))))
               +:+ newline)
  ∧ (∀ png paths1 w1 paths2 w2,
       writes_target lib1 png → writes_target lib2 png →
       m1 !! html_name = m2 !! html_name →
       render lib1 proc (initial m1) = (inr paths1, w1) →
       render lib2 proc (initial m2) = (inr paths2, w2) →
       fs (run lib1 proc m1).2 !! out_name = fs (run lib2 proc m2).2 !! out_name
       ∧ stdout (run lib1 proc m1).2 = stdout (run lib2 proc m2).2).
Proof.
  intros t1 t2. subst t1 t2. split; [|split; [|split; [|split]]].
  - intros p [Hin|Hin]; by apply exists_event_inv in Hin.
  - intros c1 h1 s1 c2 h2 s2 Hin1 Hin2.
    apply screenshot_event_inv in Hin1 as (-> & -> & Hread1).
    apply screenshot_event_inv in Hin2 as (-> & -> & Hread2).
    repeat split.
    + apply posixpath_join_str; [done|apply SCRIPT_DIR_components|done].
    + intros Hsame. rewrite Hsame in Hread1. congruence.
  - intros paths w Hr. by apply run_after_render_fs in Hr.
  - intros png paths w Hw Hr. by eapply run_replaces_output.
  - intros png paths1 w1 paths2 w2 Hw1 Hw2 Hsame Hr1 Hr2.
    destruct (run_replaces_output lib1 proc png m1 paths1 w1 Hw1 Hr1)
      as (html1 & Hread1 & -> & ->).
    destruct (run_replaces_output lib2 proc png m2 paths2 w2 Hw2 Hr2)
      as (html2 & Hread2 & -> & ->).
    rewrite Hsame, Hread2 in Hread1. by injection Hread1 as ->.
Qed.

(** C7. The value returned by the screenshot call has no influence on
    what follows.  Two renderers that return different path sequences
    but leave the same file system give the same run: same outcome, same
    output, same calls.  Which line is printed, and the size in it, is
    decided by what is at the expected output path alone. *)
Theorem C7_returned_paths_unused m paths1 paths2 w1 w2 :
  render lib1 proc (initial m) = (inr paths1, w1) →
  render lib2 proc (initial m) = (inr paths2, w2) →
  fs w1 = fs w2 →
  run lib1 proc m = run lib2 proc m
  ∧ (∀ w, report proc paths1 w = report proc paths2 w)
  ∧ stdout (run lib1 proc m).2 =
      match fs w1 !! out_name with
      | Some n => success_line out (true_div_1024 (st_size n)) +:+ newline
      | None => error_line +:+ newline
      end.
Proof.
  intros Hr1 Hr2 Hfs.
  destruct (run_after_render lib1 proc m paths1 w1 Hr1)
    as (-> & Hstd1 & html1 & Ht1 & Hread1).
  destruct (run_after_render lib2 proc m paths2 w2 Hr2)
    as (-> & Hstd2 & html2 & Ht2 & Hread2).
  assert (w1 = w2) as <-.
  { destruct w1, w2; simpl in *. congruence. }
  repeat split.
  rewrite report_eq. cbn zeta.
  destruct (fs w1 !! out_name); unfold add_stdout; simpl; by rewrite Hstd1.
Qed.

End TwoRuns.

(** ** The claims at concrete runs *)

Lemma writing_lib_writes_only_target png : writes_only_target (writing_lib png).
Proof.
  split; [done|]. intros c html name m p Hp. simpl.
  by rewrite lookup_insert_ne.
Qed.

Lemma C3_witness :
  (run (silent_lib []) sample_proc ∅).1 = inl FileNotFoundError
  ∧ exit_status (run (silent_lib []) sample_proc ∅).1 ≠ 0
  ∧ trace (run (silent_lib []) sample_proc ∅).2
      = [EvReadText (pathlib.str (HTML_FILE sample_proc))]
  ∧ count is_construct (trace (run (silent_lib []) sample_proc ∅).2) = 0%nat
  ∧ count is_screenshot (trace (run (silent_lib []) sample_proc ∅).2) = 0%nat
  ∧ count (accesses (pathlib.str (SCRIPT_DIR sample_proc // OUTPUT_FILE)))
      (trace (run (silent_lib []) sample_proc ∅).2) = 0%nat
  ∧ stdout (run (silent_lib []) sample_proc ∅).2 = ""
  ∧ fs (run (silent_lib []) sample_proc ∅).2 = ∅.
Proof.
  apply (C3_missing_source_aborts_before_render (silent_lib []) sample_proc ∅).
  vm_compute. reflexivity.
Defined.

Lemma C4_witness :
  count is_construct (trace (run (silent_lib []) sample_proc sample_fs).2) = 1%nat.
Proof.
  apply (C4_render_configuration_fixed (silent_lib []) sample_proc sample_fs)
    with (html := [60; 112; 62; 104; 105; 60; 47; 112; 62; 10]).
  vm_compute. reflexivity.
Defined.


Lemma writing_lib_writes_target png :
  writes_target (writing_lib png) (λ _ _, png).
Proof.
  intros c html name m paths m' H. simpl in H. injection H as _ <-.
  apply lookup_insert_eq.
Qed.

(** A first run leaves a picture of 1000 bytes; a second run with a
    renderer that produces another picture replaces it. *)
Lemma C6_witness :
  fs (run (writing_lib png_1000) sample_proc sample_fs).2 !! sample_png_name
    = Some (RegFile png_1000)
  ∧ ∃ html,
      read_result
        (fs (run (writing_lib png_1000) sample_proc sample_fs).2
           !! pathlib.str (HTML_FILE sample_proc)) = inr html
      ∧ fs (run (writing_lib sample_html) sample_proc
              (fs (run (writing_lib png_1000) sample_proc sample_fs).2)).2
          !! pathlib.str (SCRIPT_DIR sample_proc // OUTPUT_FILE)
        = Some (RegFile sample_html)
      ∧ stdout (run (writing_lib sample_html) sample_proc
                  (fs (run (writing_lib png_1000) sample_proc sample_fs).2)).2
        = success_line (SCRIPT_DIR sample_proc // OUTPUT_FILE)
            (true_div_1024 (st_size (RegFile sample_html))) +:+ newline.
Proof.
  split; [vm_compute; reflexivity|].
  destruct (C6_output_path_deterministic (writing_lib png_1000)
              (writing_lib sample_html) sample_proc sample_fs
              (fs (run (writing_lib png_1000) sample_proc sample_fs).2))
    as (_ & _ & _ & Hreplace & _).
  apply (Hreplace (λ _ _, sample_html) [sample_png_name]
           (render (writing_lib sample_html) sample_proc
              (initial (fs (run (writing_lib png_1000) sample_proc
                              sample_fs).2))).2).
  - apply writing_lib_writes_target.
  - vm_compute. reflexivity.
Defined.

Lemma C7_witness :
  run (silent_lib []) sample_proc sample_fs
  = run (silent_lib ["/tmp/ghost.png"]) sample_proc sample_fs
  ∧ (∀ w, report sample_proc [] w = report sample_proc ["/tmp/ghost.png"] w)
  ∧ stdout (run (silent_lib []) sample_proc sample_fs).2
    = error_line +:+ newline.
Proof.
  apply (C7_returned_paths_unused (silent_lib []) (silent_lib ["/tmp/ghost.png"])
           sample_proc sample_fs [] ["/tmp/ghost.png"]
           (render (silent_lib []) sample_proc (initial sample_fs)).2
           (render (silent_lib ["/tmp/ghost.png"]) sample_proc (initial sample_fs)).2).
  - vm_compute. reflexivity.
  - vm_compute. reflexivity.
  - vm_compute. reflexivity.
Defined.

Lemma C8_witness :
  linear_order sample_proc
    (trace (run (writing_lib png_1000) sample_proc sample_fs).2)
  ∧ count is_screenshot
      (trace (run (writing_lib png_1000) sample_proc sample_fs).2) = 1%nat
  ∧ count is_print
      (trace (run (writing_lib png_1000) sample_proc sample_fs).2) = 1%nat.
Proof.
  apply (C8_linear_order_up_to_fault (writing_lib png_1000) sample_proc sample_fs).
  vm_compute. reflexivity.
Defined.

(** C8 as the specification words it fails: with the source file absent
    the run makes one call, the read, and stops; the screenshot capability
    is invoked zero times and neither report is printed. *)
Lemma C8_counterexample :
  let r := run (silent_lib []) sample_proc ∅ in
  r.1 = inl FileNotFoundError
  ∧ trace r.2
    = [EvReadText "/repo/docs/whitepaper/assets/dao_vs_dee_diagram.html"]
  ∧ count is_screenshot (trace r.2) ≠ 1%nat
  ∧ count is_print (trace r.2) ≠ 1%nat
  ∧ ¬ linear_order sample_proc (trace r.2).
Proof.
  vm_compute. repeat split; try discriminate.
  intros [html [H|[line H]]]; discriminate H.
Qed.

Lemma C9_witness :
  (run (silent_lib []) sample_proc bad_utf8_fs).1 = inl UnicodeDecodeError
  ∧ exit_status (run (silent_lib []) sample_proc bad_utf8_fs).1 ≠ 0
  ∧ trace (run (silent_lib []) sample_proc bad_utf8_fs).2
      = [EvReadText (pathlib.str (HTML_FILE sample_proc))]
  ∧ count is_construct (trace (run (silent_lib []) sample_proc bad_utf8_fs).2) = 0%nat
  ∧ count is_screenshot (trace (run (silent_lib []) sample_proc bad_utf8_fs).2) = 0%nat
  ∧ stdout (run (silent_lib []) sample_proc bad_utf8_fs).2 = ""
  ∧ fs (run (silent_lib []) sample_proc bad_utf8_fs).2 = bad_utf8_fs.
Proof.
  apply (C9_undecodable_source_aborts_before_render (silent_lib []) sample_proc
           bad_utf8_fs [Byte.x3c; Byte.xff; Byte.x3e]).
  - vm_compute. reflexivity.
  - vm_compute. reflexivity.
Defined.

Lemma C10_witness :
  fs (run (writing_lib png_1000) sample_proc sample_fs).2
    !! pathlib.str (HTML_FILE sample_proc)
  = sample_fs !! pathlib.str (HTML_FILE sample_proc).
Proof.
  apply (C10_source_read_once_never_written (writing_lib png_1000) sample_proc
           sample_fs).
  apply writing_lib_writes_only_target.
Defined.


Lemma C1_witness :
  stdout (run (silent_lib []) sample_proc sample_fs).2
    = "Error: PNG file was not created" +:+ newline
  ∧ (run (silent_lib []) sample_proc sample_fs).1 = inr tt
  ∧ exit_status (run (silent_lib []) sample_proc sample_fs).1 = 0
  ∧ fs (run (silent_lib []) sample_proc sample_fs).2 = sample_fs.
Proof.
  apply (C1_missing_output_prints_error_exit_0 (silent_lib []) sample_proc
           sample_fs [] (render (silent_lib []) sample_proc (initial sample_fs)).2).
  - vm_compute. reflexivity.
  - vm_compute. reflexivity.
Defined.

Lemma C2_witness :
  stdout (run (writing_lib png_1000) sample_proc sample_fs).2
    = "Success: /repo/docs/whitepaper/assets/dao_vs_dee_diagram.png (1 KB)"
        +:+ newline
  ∧ -512 ≤ 1024 * nearest_kb 1000 - 1000 ≤ 512
  ∧ 1000 / 1024 ≤ nearest_kb 1000 ≤ 1000 / 1024 + 1.
Proof.
  apply (C2_success_line_rounds_to_nearest (writing_lib png_1000) sample_proc
           sample_fs
           [sample_png_name]
           (render (writing_lib png_1000) sample_proc (initial sample_fs)).2
           (RegFile png_1000)).
  - vm_compute. reflexivity.
  - vm_compute. reflexivity.
  - vm_compute. reflexivity.
Defined.

(** C2 as the specification words it fails: after a render that left a
    file of 1000 bytes at the output path, the script prints "(1 KB)",
    while the size truncated to whole kilobytes is 0. *)
Lemma C2_counterexample :
  let r := run (writing_lib png_1000) sample_proc sample_fs in
  let output_path := SCRIPT_DIR sample_proc // OUTPUT_FILE in
  fs r.2 !! pathlib.str output_path = Some (RegFile png_1000)
  ∧ st_size (RegFile png_1000) = 1000
  ∧ spec_size_kb 1000 = 0
  ∧ stdout r.2
      = "Success: /repo/docs/whitepaper/assets/dao_vs_dee_diagram.png (1 KB)"
          +:+ newline
  ∧ stdout r.2 ≠ spec_success_line output_path 1000 +:+ newline.
Proof.
  vm_compute. repeat split; try reflexivity. discriminate.
Qed.

(** * Further properties of the script *)

(** ** Resolved paths *)

Lemma split_slash_single w : no_slash w = true → pathlib.split_slash w = [w].
Proof.
  induction w as [|c w IH]; [done|]. simpl.
  intros [Hc Hw]%andb_true_iff. apply negb_true_iff in Hc. rewrite Hc.
  by rewrite IH.
Qed.

Lemma split_slash_cons w rest :
  no_slash w = true →
  pathlib.split_slash (w +:+ "/" +:+ rest) = w :: pathlib.split_slash rest.
Proof.
  induction w as [|c w IH]; [done|].
  intros [Hc Hw]%andb_true_iff. apply negb_true_iff in Hc.
  rewrite append_cons. cbn [pathlib.split_slash]. rewrite Hc.
  by rewrite IH.
Qed.

Lemma split_slash_join ws :
  ws ≠ [] → Forall component ws →
  pathlib.split_slash (pathlib.join_slash ws) = ws.
Proof.
  intros Hne Hws. induction Hws as [|w ws [_ Hw] Hws IH]; [done|].
  destruct ws as [|v ws]; [by apply split_slash_single|].
  rewrite join_slash_cons by done.
  rewrite split_slash_cons by done. by rewrite IH.
Qed.

Lemma filter_is_component_id ws :
  Forall canonical_component ws → List.filter pathlib.is_component ws = ws.
Proof.
  induction 1 as [|w ws [[Hne _] [Hdot _]] Hws IH]; [done|].
  simpl. rewrite IH. unfold pathlib.is_component.
  by rewrite (proj2 (String.eqb_neq w "")), (proj2 (String.eqb_neq w ".")).
Qed.

Lemma canonical_is_component ws :
  Forall canonical_component ws → Forall component ws.
Proof. intros H. eapply Forall_impl; [done|]. by intros w [? _]. Qed.

Lemma Path_parts_no_dot s :
  Forall (λ w, component w ∧ w ≠ ".") (pathlib.parts (pathlib.Path s)).
Proof.
  pose proof (Path_components s) as Hc. simpl in *.
  apply Forall_forall. intros w Hin. split.
  { rewrite Forall_forall in Hc. by apply Hc. }
  apply list_elem_of_In, filter_In in Hin as [_ Hw].
  intros ->. done.
Qed.

Lemma normalize_canonical ws acc :
  Forall canonical_component acc →
  Forall (λ w, component w ∧ w ≠ ".") ws →
  Forall canonical_component (pathlib.normalize acc ws).
Proof.
  intros Hacc Hws. revert acc Hacc.
  induction Hws as [|w ws [Hw Hdot] Hws IH]; intros acc Hacc; [done|].
  simpl. destruct (String.eqb_spec w "..") as [->|Hne].
  - by apply IH, removelast_Forall.
  - apply IH, Forall_app. split; [done|]. by apply Forall_singleton.
Qed.

Lemma normalize_no_dotdot ws acc :
  Forall canonical_component ws → pathlib.normalize acc ws = acc ++ ws.
Proof.
  intros Hws. revert acc.
  induction Hws as [|w ws (_ & _ & Hne) Hws IH]; intros acc.
  { by rewrite app_nil_r. }
  simpl. rewrite (proj2 (String.eqb_neq w "..")) by done.
  by rewrite IH, <- app_assoc.
Qed.

Lemma SCRIPT_DIR_canonical proc :
  Forall canonical_component (pathlib.parts (SCRIPT_DIR proc)).
Proof.
  unfold SCRIPT_DIR, pathlib.resolve. cbn [pathlib.parts pathlib.parent pathlib.is_abs].
  apply normalize_canonical.
  - destruct (pathlib.is_abs (pathlib.Path (file__ proc))); [done|].
    apply normalize_canonical; [done|apply Path_parts_no_dot].
  - apply removelast_Forall, Path_parts_no_dot.
Qed.

Lemma Path_str d :
  pathlib.is_abs d = true →
  Forall canonical_component (pathlib.parts d) →
  pathlib.Path (pathlib.str d) = d.
Proof.
  destruct d as [a ps]. simpl. intros -> Hps.
  unfold pathlib.Path, pathlib.str. cbn [pathlib.is_abs pathlib.parts].
  f_equal. change ("/" +:+ pathlib.join_slash ps)
    with ("" +:+ "/" +:+ pathlib.join_slash ps).
  rewrite split_slash_cons by done. cbn [List.filter pathlib.is_component].
  change (negb ("" =? "")%string && negb ("" =? ".")%string) with false.
  cbv iota.
  destruct ps as [|w ws]; [done|].
  rewrite split_slash_join by (done || by apply canonical_is_component).
  by apply filter_is_component_id.
Qed.

(** X1. The resolved script directory is an absolute, normalised path:
    none of its components is empty, [.] or [..], and none contains a
    slash, whatever [__file__] and the working directory are. *)
Theorem X1_script_dir_is_normalised proc :
  pathlib.is_abs (SCRIPT_DIR proc) = true
  ∧ ∀ w, w ∈ pathlib.parts (SCRIPT_DIR proc) →
         w ≠ "" ∧ w ≠ "." ∧ w ≠ ".." ∧ no_slash w = true.
Proof.
  split; [done|]. intros w Hin.
  pose proof (SCRIPT_DIR_canonical proc) as Hc.
  rewrite Forall_forall in Hc.
  by destruct (Hc w Hin) as [[? ?] [? ?]].
Qed.

(** X2. Round trip: the string handed to the renderer as output directory,
    [str(SCRIPT_DIR)], parses back to the script directory, and the name of
    the checked file parses back to the checked path. *)
Theorem X2_script_dir_str_round_trip proc :
  pathlib.Path (pathlib.str (SCRIPT_DIR proc)) = SCRIPT_DIR proc
  ∧ pathlib.Path (output_path (render_config proc)) = SCRIPT_DIR proc
  ∧ pathlib.Path (pathlib.str (SCRIPT_DIR proc // OUTPUT_FILE))
    = SCRIPT_DIR proc // OUTPUT_FILE.
Proof.
  pose proof (SCRIPT_DIR_canonical proc) as Hc.
  split; [by apply Path_str|]. split; [by apply Path_str|].
  apply Path_str; [done|]. cbn [pathlib.joinpath pathlib.parts].
  apply Forall_app. split; [done|]. apply Forall_singleton.
  by repeat split.
Qed.

(** X3. Resolving is idempotent: resolving the script directory again,
    from any working directory, gives the script directory. *)
Theorem X3_resolve_idempotent proc cwd :
  pathlib.resolve cwd (SCRIPT_DIR proc) = SCRIPT_DIR proc.
Proof.
  pose proof (SCRIPT_DIR_canonical proc) as Hc.
  unfold pathlib.resolve at 1.
  change (pathlib.is_abs (SCRIPT_DIR proc)) with true. cbv iota.
  rewrite normalize_no_dotdot by done. done.
Qed.

(** ** Text and lines *)

Lemma append_nonempty (s t : string) : s ≠ "" → s +:+ t ≠ "".
Proof. destruct s; [done|]. by rewrite append_cons. Qed.

Lemma universal_newlines_no_cr_aux s :
  (13 ∉ universal_newlines s) ∧ (∀ c, 13 ∉ universal_newlines (c :: s)).
Proof.
  induction s as [|d t [IH1 IH2]].
  - split; [apply not_elem_of_nil|]. intros c. simpl.
    destruct (Z.eqb_spec c 13) as [->|Hc]; rewrite not_elem_of_cons.
    + split; [done|apply not_elem_of_nil].
    + split; [done|apply not_elem_of_nil].
  - split; [apply IH2|]. intros c.
    change (universal_newlines (c :: d :: t))
      with (if c =? 13
            then if d =? 10 then 10 :: universal_newlines t
                 else 10 :: universal_newlines (d :: t)
            else c :: universal_newlines (d :: t)).
    destruct (Z.eqb_spec c 13) as [->|Hc]; [destruct (d =? 10)|];
      rewrite not_elem_of_cons; split; try done; apply IH2.
Qed.

Lemma universal_newlines_no_cr s : 13 ∉ universal_newlines s.
Proof. apply universal_newlines_no_cr_aux. Qed.

Lemma universal_newlines_id s : 13 ∉ s → universal_newlines s = s.
Proof.
  induction s as [|c t IH]; [done|].
  intros [Hc Ht]%not_elem_of_cons. simpl.
  rewrite (proj2 (Z.eqb_neq c 13)) by done. by rewrite IH.
Qed.

Lemma byte_val_range b : 0 ≤ byte_val b < 256.
Proof.
  unfold byte_val. pose proof (Byte.to_N_bounded b). lia.
Qed.

(** ** Faults while rendering *)

Section FurtherRuns.

Variable lib : Html2ImageLib.
Variable proc : Process.

Local Abbreviation html_name := (pathlib.str (HTML_FILE proc)).
Local Abbreviation out := (SCRIPT_DIR proc // OUTPUT_FILE).
Local Abbreviation out_name := (pathlib.str (SCRIPT_DIR proc // OUTPUT_FILE)).
Local Abbreviation cfg := (render_config proc).

(** X4. If the source is read and the [Html2Image] constructor raises (a
    browser executable that cannot be found, say), the exception goes
    unhandled: exit status 1, the screenshot call is never made, the
    existence check is not reached, and nothing is printed. *)
Theorem X4_constructor_fault_propagates m html e m1 :
  read_result (m !! html_name) = inr html →
  hti_init lib cfg m = (inl e, m1) →
  (run lib proc m).1 = inl e
  ∧ exit_status (run lib proc m).1 = 1
  ∧ trace (run lib proc m).2 = [EvReadText html_name; EvHtml2Image cfg]
  ∧ stdout (run lib proc m).2 = ""
  ∧ fs (run lib proc m).2 = m1.
Proof.
  intros Hread Hinit.
  destruct (run_run_spec lib proc m)
    as [e' w Hr|h paths m2 Hr Hout|h paths m2 n Hr Hout];
    inversion Hr; subst; merge_calls; by repeat split.
Qed.

(** X5. If the constructor returns and the screenshot call raises, the
    exception goes unhandled: exit status 1, the existence check is not
    reached and nothing is printed, even when the renderer had already
    left a file at the output path. *)
Theorem X5_screenshot_fault_propagates m html m1 e m2 :
  read_result (m !! html_name) = inr html →
  hti_init lib cfg m = (inr tt, m1) →
  hti_screenshot lib cfg html OUTPUT_FILE m1 = (inl e, m2) →
  (run lib proc m).1 = inl e
  ∧ exit_status (run lib proc m).1 = 1
  ∧ trace (run lib proc m).2
    = [EvReadText html_name; EvHtml2Image cfg;
       EvScreenshot cfg html OUTPUT_FILE]
  ∧ stdout (run lib proc m).2 = ""
  ∧ fs (run lib proc m).2 = m2.
Proof.
  intros Hread Hinit Hshot.
  destruct (run_run_spec lib proc m)
    as [e' w Hr|h paths m2' Hr Hout|h paths m2' n Hr Hout];
    inversion Hr; subst; merge_calls; by repeat split.
Qed.

(** X6. If the source path names a directory, the read raises
    [IsADirectoryError]: exit status 1, no renderer constructed or
    invoked, nothing printed, file system unchanged. *)
Theorem X6_directory_source_aborts m sz :
  m !! html_name = Some (Directory sz) →
  (run lib proc m).1 = inl IsADirectoryError
  ∧ exit_status (run lib proc m).1 = 1
  ∧ trace (run lib proc m).2 = [EvReadText html_name]
  ∧ stdout (run lib proc m).2 = ""
  ∧ fs (run lib proc m).2 = m.
Proof.
  intros H. by rewrite (run_read_fault lib proc m IsADirectoryError) by (by rewrite H).
Qed.

(** ** What the exit status and the printed line say *)

(** X7. The exit status is 0 exactly when the rendering part returned,
    and 1 otherwise; it is 0 exactly when a line was printed.  Among the
    runs with status 0, the error line is printed exactly when nothing is
    at the output path: the exit status tells nothing about the PNG. *)
Theorem X7_exit_status_zero_iff_rendered m :
  let r := run lib proc m in
  (exit_status r.1 = 0 ↔
     ∃ paths w2, render lib proc (initial m) = (inr paths, w2))
  ∧ (exit_status r.1 = 0 ∨ exit_status r.1 = 1)
  ∧ (exit_status r.1 = 0 ↔ stdout r.2 ≠ "")
  ∧ (exit_status r.1 = 0 →
       (stdout r.2 = error_line +:+ newline ↔ fs r.2 !! out_name = None)).
Proof.
  intros r. subst r.
  pose proof (render_render_spec lib proc m) as Hs.
  destruct (render lib proc (initial m)) as [[e|paths] w2] eqn:Hr.
  - assert (run lib proc m = (inl e, w2)) as ->.
    { unfold run. rewrite main_split. unfold mbind, M_bind. by rewrite Hr. }
    assert (stdout w2 = "") as Hstd by (by inversion Hs).
    cbn [fst snd exit_status]. rewrite Hstd.
    repeat split; try done; try (by right).
    intros (? & ? & ?). done.
  - destruct (run_after_render lib proc m paths w2 Hr) as (-> & Hstd & _).
    rewrite report_eq. cbn zeta.
    destruct (fs w2 !! out_name) as [n|] eqn:Hout;
      cbn [fst snd exit_status add_stdout add_event stdout fs];
      rewrite Hstd, ?Hout.
    + change ("" +:+ ?s) with s.
      assert (success_line out (true_div_1024 (st_size n)) +:+ newline ≠ "")
        as Hne by (by apply append_nonempty).
      assert (success_line out (true_div_1024 (st_size n)) +:+ newline
              ≠ error_line +:+ newline) as Hdiff.
      { unfold success_line, error_line. rewrite !append_assoc. discriminate. }
      split; [split; [eauto|done]|]. split; [by left|].
      split; [done|]. intros _. by split.
    + change ("" +:+ ?s) with s.
      split; [split; [eauto|done]|]. split; [by left|].
      split; [done|]. intros _. by split.
Qed.

(** X8. The script and the renderer agree on the file: if the rendering
    returns and a file is at [os.path.join(output_path, save_as)], the
    place the renderer was asked to write, then the existence check
    succeeds and the success line is printed with that file's size. *)
Theorem X8_file_at_renderer_target_is_reported m paths w2 n :
  render lib proc (initial m) = (inr paths, w2) →
  fs w2 !! posixpath.join (output_path cfg) OUTPUT_FILE = Some n →
  (run lib proc m).1 = inr tt
  ∧ stdout (run lib proc m).2
    = "Success: " +:+ out_name +:+ " ("
        +:+ format_0f (true_div_1024 (st_size n)) +:+ " KB)" +:+ newline.
Proof.
  intros Hr Hn.
  change (output_path cfg) with (pathlib.str (SCRIPT_DIR proc)) in Hn.
  rewrite posixpath_join_str in Hn
    by (done || apply SCRIPT_DIR_components).
  destruct (run_after_render lib proc m paths w2 Hr) as (-> & Hstd & _).
  rewrite report_eq. cbn zeta. rewrite Hn.
  cbn [fst snd add_stdout add_event stdout]. rewrite Hstd.
  split; [done|]. unfold success_line. by rewrite !append_assoc.
Qed.

(** X9. The script does not tell a fresh rendering from an old one: if a
    file was at the output path before the run and the renderer returns
    having left that path as it was, the success line is printed, with the
    size of the old file. *)
Theorem X9_stale_artifact_reported_as_success m paths w2 old :
  m !! out_name = Some old →
  render lib proc (initial m) = (inr paths, w2) →
  fs w2 !! out_name = m !! out_name →
  (run lib proc m).1 = inr tt
  ∧ stdout (run lib proc m).2
    = "Success: " +:+ out_name +:+ " ("
        +:+ format_0f (true_div_1024 (st_size old)) +:+ " KB)" +:+ newline.
Proof.
  intros Hold Hr Hsame. rewrite Hold in Hsame.
  destruct (run_after_render lib proc m paths w2 Hr) as (-> & Hstd & _).
  rewrite report_eq. cbn zeta. rewrite Hsame.
  cbn [fst snd add_stdout add_event stdout]. rewrite Hstd.
  split; [done|]. unfold success_line. by rewrite !append_assoc.
Qed.

(** ** What the renderer is given *)

(** X10. Whenever the screenshot call is made, the text it is given is
    the UTF-8 decoding of the bytes of the source file with CR LF and lone
    CR turned into LF; it never contains a carriage return. *)
Theorem X10_renderer_receives_decoded_source m c html name :
  EvScreenshot c html name ∈ trace (run lib proc m).2 →
  (∃ data text,
      m !! html_name = Some (RegFile data)
      ∧ utf8_decode data = Some text
      ∧ html = universal_newlines text)
  ∧ 13 ∉ html.
Proof.
  intros Hin. apply screenshot_event_inv in Hin as (_ & _ & Hread).
  unfold read_result in Hread.
  destruct (m !! html_name) as [[data|sz]|]; try done.
  destruct (utf8_decode data) as [text|] eqn:Hdec; [|done].
  injection Hread as <-. split; [eauto|apply universal_newlines_no_cr].
Qed.

(** X11. A source file of ASCII bytes without carriage returns reaches
    the renderer unchanged, byte for byte. *)
Theorem X11_ascii_source_passed_verbatim m data c html name :
  m !! html_name = Some (RegFile data) →
  Forall (λ b, byte_val b < 128 ∧ byte_val b ≠ 13) data →
  EvScreenshot c html name ∈ trace (run lib proc m).2 →
  html = byte_val <$> data.
Proof.
  intros Hm Hdata Hin. apply screenshot_event_inv in Hin as (_ & _ & Hread).
  rewrite Hm in Hread. unfold read_result, utf8_decode in Hread.
  rewrite utf8_decode_from_ascii in Hread.
  - injection Hread as <-. apply universal_newlines_id.
    intros Hcr%list_elem_of_fmap. destruct Hcr as (b & Hb & Hbin).
    rewrite Forall_forall in Hdata. destruct (Hdata b Hbin). congruence.
  - apply Forall_fmap. eapply Forall_impl; [done|]. intros b [Hb _]. simpl.
    pose proof (byte_val_range b). lia.
Qed.

End FurtherRuns.

(** ** The size in the success line, for every size a file can have *)

Lemma round_half_even_cases q num den :
  (round_half_even q num den = q ∧ 2 * num ≤ den)
  ∨ (round_half_even q num den = q + 1 ∧ den ≤ 2 * num).
Proof.
  unfold round_half_even.
  destruct (Z.ltb_spec den (2 * num)); simpl; [right; lia|].
  destruct (Z.eqb_spec (2 * num) den); simpl; [|left; lia].
  destruct (Z.odd q); [right|left]; lia.
Qed.

Lemma true_div_1024_shift a k :
  0 ≤ a → 0 ≤ k → Z.max 0 (Z.log2 a - 52) = k →
  true_div_1024 a
  = {| mant := round_half_even (a / 2 ^ k) (a mod 2 ^ k) (2 ^ k);
       expo := k - 10 |}.
Proof.
  intros Ha Hk Hsh. unfold true_div_1024. rewrite Hsh.
  by rewrite Z.shiftr_div_pow2, Z.land_ones by done.
Qed.

Lemma round_0f_negative_expo m k d :
  1 ≤ k ≤ 9 → d = 2 ^ (10 - k) →
  round_0f {| mant := m; expo := k - 10 |}
  = round_half_even (m / d) (m mod d) d.
Proof.
  intros Hk ->. unfold round_0f. cbn [mant expo].
  rewrite (proj2 (Z.leb_gt 0 (k - 10))) by lia.
  by replace (- (k - 10)) with (10 - k) by lia.
Qed.

Lemma round_0f_zero_expo m : round_0f {| mant := m; expo := 10 - 10 |} = m.
Proof.
  unfold round_0f. cbn [mant expo].
  change (0 <=? 10 - 10) with true. change (2 ^ (10 - 10)) with 1.
  cbv iota. lia.
Qed.

Lemma round_0f_accuracy a :
  0 ≤ a < 2 ^ 63 →
  0 ≤ round_0f (true_div_1024 a)
  ∧ -1024 ≤ 1024 * round_0f (true_div_1024 a) - a ≤ 1024.
Proof.
  intros [H0 H63].
  destruct (decide (a < 2 ^ 53)) as [Hs|Hl].
  { rewrite round_0f_exact by lia.
    pose proof (nearest_kb_is_nearest a). pose proof (nearest_kb_floor a).
    assert (0 ≤ a / 1024) by (apply Z.div_pos; lia). lia. }
  assert (53 ≤ Z.log2 a < 63) as Hlog.
  { split; [apply Z.log2_le_pow2; lia|apply Z.log2_lt_pow2; lia]. }
  assert (∃ k, 1 ≤ k ≤ 10 ∧ Z.max 0 (Z.log2 a - 52) = k) as (k & Hk & Hsh).
  { exists (Z.log2 a - 52). lia. }
  rewrite (true_div_1024_shift a k) by lia.
  assert (k = 1 ∨ k = 2 ∨ k = 3 ∨ k = 4 ∨ k = 5 ∨ k = 6 ∨ k = 7 ∨ k = 8
          ∨ k = 9 ∨ k = 10) as Hcases by lia.
  destruct Hcases as [->|[->|[->|[->|[->|[->|[->|[->|[->| ->]]]]]]]]].
  - rewrite (round_0f_negative_expo _ 1 512) by (lia || reflexivity).
    two_roundings round_half_even_cases a 1 2 512.
  - rewrite (round_0f_negative_expo _ 2 256) by (lia || reflexivity).
    two_roundings round_half_even_cases a 2 4 256.
  - rewrite (round_0f_negative_expo _ 3 128) by (lia || reflexivity).
    two_roundings round_half_even_cases a 3 8 128.
  - rewrite (round_0f_negative_expo _ 4 64) by (lia || reflexivity).
    two_roundings round_half_even_cases a 4 16 64.
  - rewrite (round_0f_negative_expo _ 5 32) by (lia || reflexivity).
    two_roundings round_half_even_cases a 5 32 32.
  - rewrite (round_0f_negative_expo _ 6 16) by (lia || reflexivity).
    two_roundings round_half_even_cases a 6 64 16.
  - rewrite (round_0f_negative_expo _ 7 8) by (lia || reflexivity).
    two_roundings round_half_even_cases a 7 128 8.
  - rewrite (round_0f_negative_expo _ 8 4) by (lia || reflexivity).
    two_roundings round_half_even_cases a 8 256 4.
  - rewrite (round_0f_negative_expo _ 9 2) by (lia || reflexivity).
    two_roundings round_half_even_cases a 9 512 2.
  - rewrite round_0f_zero_expo. change (2 ^ 10) with 1024.
    pose proof (Z.div_mod a 1024 ltac:(lia)).
    pose proof (Z.mod_pos_bound a 1024 ltac:(lia)).
    assert (0 ≤ a / 1024) by (apply Z.div_pos; lia).
    destruct (round_half_even_cases (a / 1024) (a mod 1024) 1024)
      as [[-> ?]|[-> ?]]; lia.
Qed.

Lemma nearest_kb_small a : 0 ≤ a ≤ 512 → nearest_kb a = 0.
Proof.
  intros Ha. unfold nearest_kb.
  rewrite Z.div_small, Z.mod_small by lia.
  destruct (round_half_even_cases 0 a 1024) as [[-> _]|[Hup Hle]]; [done|].
  assert (a = 512) as -> by lia. done.
Qed.

Lemma nearest_kb_mono a b : 0 ≤ a ≤ b → nearest_kb a ≤ nearest_kb b.
Proof.
  intros Hab. unfold nearest_kb.
  pose proof (Z.div_mod a 1024 ltac:(lia)).
  pose proof (Z.div_mod b 1024 ltac:(lia)).
  pose proof (Z.mod_pos_bound a 1024 ltac:(lia)).
  pose proof (Z.mod_pos_bound b 1024 ltac:(lia)).
  destruct (decide (a / 1024 = b / 1024)) as [Heq|Hne].
  - rewrite Heq in *. unfold round_half_even.
    destruct (Z.odd (b / 1024));
      destruct (Z.ltb_spec 1024 (2 * (a mod 1024)));
      destruct (Z.ltb_spec 1024 (2 * (b mod 1024)));
      destruct (Z.eqb_spec (2 * (a mod 1024)) 1024);
      destruct (Z.eqb_spec (2 * (b mod 1024)) 1024); simpl; lia.
  - destruct (round_half_even_cases (a / 1024) (a mod 1024) 1024)
      as [[-> _]|[-> _]];
      destruct (round_half_even_cases (b / 1024) (b mod 1024) 1024)
      as [[-> _]|[-> _]]; lia.
Qed.

Section SizeReport.

Variable lib : Html2ImageLib.
Variable proc : Process.

Local Abbreviation out := (SCRIPT_DIR proc // OUTPUT_FILE).
Local Abbreviation out_name := (pathlib.str (SCRIPT_DIR proc // OUTPUT_FILE)).

(** The success line with the printed number named. *)
Lemma run_success_line m paths w2 n :
  render lib proc (initial m) = (inr paths, w2) →
  fs w2 !! out_name = Some n →
  stdout (run lib proc m).2
  = "Success: " +:+ out_name +:+ " ("
      +:+ pretty (round_0f (true_div_1024 (st_size n))) +:+ " KB)" +:+ newline.
Proof.
  intros Hr Hn.
  destruct (run_after_render lib proc m paths w2 Hr) as (-> & Hstd & _).
  rewrite report_eq. cbn zeta. rewrite Hn.
  cbn [fst snd add_stdout add_event stdout]. rewrite Hstd.
  unfold success_line, format_0f. by rewrite !append_assoc.
Qed.

(** X12. For every file size below 2^63 bytes, rounded twice or not, the
    number in the success line is a non-negative integer, and it differs
    from the true size by at most one kilobyte. *)
Theorem X12_reported_size_within_one_kilobyte m paths w2 n :
  render lib proc (initial m) = (inr paths, w2) →
  fs w2 !! out_name = Some n →
  st_size n < 2 ^ 63 →
  ∃ N, stdout (run lib proc m).2
       = "Success: " +:+ out_name +:+ " (" +:+ pretty N +:+ " KB)" +:+ newline
     ∧ 0 ≤ N
     ∧ -1024 ≤ 1024 * N - st_size n ≤ 1024.
Proof.
  intros Hr Hn Hsz. exists (round_0f (true_div_1024 (st_size n))).
  split; [by apply (run_success_line m paths w2)|].
  apply round_0f_accuracy. pose proof (st_size_nonneg n). lia.
Qed.

(** X13. The success line does not require a non-empty picture: the
    number printed is 0 exactly when the file has at most 512 bytes, and a
    file that small, an empty one included, is reported as
    "Success: <path> (0 KB)". *)
Theorem X13_small_file_reported_as_zero_kb m paths w2 n :
  render lib proc (initial m) = (inr paths, w2) →
  fs w2 !! out_name = Some n →
  st_size n < 2 ^ 63 →
  (round_0f (true_div_1024 (st_size n)) = 0 ↔ st_size n ≤ 512)
  ∧ (st_size n ≤ 512 →
     stdout (run lib proc m).2
     = "Success: " +:+ out_name +:+ " (0 KB)" +:+ newline).
Proof.
  intros Hr Hn Hsz. pose proof (st_size_nonneg n) as H0.
  assert (st_size n ≤ 512 → round_0f (true_div_1024 (st_size n)) = 0) as Hsmall.
  { intros Hle. rewrite round_0f_exact by lia. apply nearest_kb_small. lia. }
  split; [split; [|done]|].
  - intros Hz.
    destruct (round_0f_accuracy (st_size n)) as [_ Hacc]; [lia|].
    rewrite Hz in Hacc.
    destruct (decide (st_size n ≤ 512)) as [|Hbig]; [done|].
    rewrite round_0f_exact in Hz by lia.
    unfold nearest_kb in Hz.
    pose proof (Z.div_mod (st_size n) 1024 ltac:(lia)).
    pose proof (Z.mod_pos_bound (st_size n) 1024 ltac:(lia)).
    assert (0 ≤ st_size n / 1024) by (apply Z.div_pos; lia).
    destruct (round_half_even_cases (st_size n / 1024) (st_size n mod 1024) 1024)
      as [[Heq ?]|[Heq ?]]; rewrite Heq in Hz; [|lia].
    assert (st_size n mod 1024 = 512) as Htie by lia.
    assert (st_size n / 1024 = 0) as Hq by lia. lia.
  - intros Hle. rewrite (run_success_line m paths w2 n) by done.
    by rewrite Hsmall.
Qed.

End SizeReport.

(** X14. Below 2^53 bytes the number in the success line is monotone: a
    larger file is never reported with a smaller number. *)
Theorem X14_reported_size_monotone a b :
  0 ≤ a ≤ b → b < 2 ^ 53 →
  round_0f (true_div_1024 a) ≤ round_0f (true_div_1024 b).
Proof.
  intros Hab Hb. rewrite !round_0f_exact by lia. by apply nearest_kb_mono.
Qed.

(** ** Where the script is, and where it is run from *)

(** A run uses the process only through the script directory. *)
Lemma run_script_dir lib p1 p2 m :
  SCRIPT_DIR p1 = SCRIPT_DIR p2 → run lib p1 m = run lib p2 m.
Proof.
  intros Hdir.
  unfold run, main, report, render_config, HTML_FILE. by rewrite Hdir.
Qed.


(** X16. When [__file__] is an absolute path the working directory has no
    influence on the run: started from any two directories, the script
    makes the same calls, prints the same line and ends the same way. *)
Theorem X16_run_independent_of_working_directory lib file cwd1 cwd2 m :
  pathlib.is_abs (pathlib.Path file) = true →
  run lib {| file__ := file; getcwd := cwd1 |} m
  = run lib {| file__ := file; getcwd := cwd2 |} m.
Proof.
  intros Habs. apply run_script_dir.
  unfold SCRIPT_DIR, pathlib.resolve. cbn [file__ getcwd].
  unfold pathlib.parent at 1 3. cbn [pathlib.is_abs]. by rewrite Habs.
Qed.

(** ** The further properties at concrete runs *)

Lemma X4_witness :
  (run broken_lib sample_proc sample_fs).1
    = inl (LibraryError "browser executable not found")
  ∧ exit_status (run broken_lib sample_proc sample_fs).1 = 1
  ∧ trace (run broken_lib sample_proc sample_fs).2
    = [EvReadText (pathlib.str (HTML_FILE sample_proc));
       EvHtml2Image (render_config sample_proc)]
  ∧ stdout (run broken_lib sample_proc sample_fs).2 = ""
  ∧ fs (run broken_lib sample_proc sample_fs).2 = sample_fs.
Proof.
  apply (X4_constructor_fault_propagates broken_lib sample_proc sample_fs
           [60; 112; 62; 104; 105; 60; 47; 112; 62; 10]).
  - vm_compute. reflexivity.
  - vm_compute. reflexivity.
Defined.

Lemma X5_witness :
  (run crashing_lib sample_proc sample_fs).1
    = inl (LibraryError "renderer crashed")
  ∧ exit_status (run crashing_lib sample_proc sample_fs).1 = 1
  ∧ trace (run crashing_lib sample_proc sample_fs).2
    = [EvReadText (pathlib.str (HTML_FILE sample_proc));
       EvHtml2Image (render_config sample_proc);
       EvScreenshot (render_config sample_proc)
         [60; 112; 62; 104; 105; 60; 47; 112; 62; 10] OUTPUT_FILE]
  ∧ stdout (run crashing_lib sample_proc sample_fs).2 = ""
  ∧ fs (run crashing_lib sample_proc sample_fs).2 = sample_fs.
Proof.
  apply (X5_screenshot_fault_propagates crashing_lib sample_proc sample_fs
           [60; 112; 62; 104; 105; 60; 47; 112; 62; 10] sample_fs).
  - vm_compute. reflexivity.
  - vm_compute. reflexivity.
  - vm_compute. reflexivity.
Defined.

Lemma X6_witness :
  (run (silent_lib []) sample_proc dir_source_fs).1 = inl IsADirectoryError
  ∧ exit_status (run (silent_lib []) sample_proc dir_source_fs).1 = 1
  ∧ trace (run (silent_lib []) sample_proc dir_source_fs).2
    = [EvReadText (pathlib.str (HTML_FILE sample_proc))]
  ∧ stdout (run (silent_lib []) sample_proc dir_source_fs).2 = ""
  ∧ fs (run (silent_lib []) sample_proc dir_source_fs).2 = dir_source_fs.
Proof.
  apply (X6_directory_source_aborts (silent_lib []) sample_proc dir_source_fs 4096).
  vm_compute. reflexivity.
Defined.

Lemma X7_witness :
  stdout (run (silent_lib []) sample_proc sample_fs).2 = error_line +:+ newline
  ↔ fs (run (silent_lib []) sample_proc sample_fs).2
      !! pathlib.str (SCRIPT_DIR sample_proc // OUTPUT_FILE) = None.
Proof.
  apply (X7_exit_status_zero_iff_rendered (silent_lib []) sample_proc sample_fs).
  vm_compute. reflexivity.
Defined.

Lemma X8_witness :
  (run (writing_lib png_1000) sample_proc sample_fs).1 = inr tt
  ∧ stdout (run (writing_lib png_1000) sample_proc sample_fs).2
    = "Success: " +:+ pathlib.str (SCRIPT_DIR sample_proc // OUTPUT_FILE)
        +:+ " (" +:+ format_0f (true_div_1024 (st_size (RegFile png_1000)))
        +:+ " KB)" +:+ newline.
Proof.
  apply (X8_file_at_renderer_target_is_reported (writing_lib png_1000)
           sample_proc sample_fs [sample_png_name]
           (render (writing_lib png_1000) sample_proc (initial sample_fs)).2).
  - vm_compute. reflexivity.
  - vm_compute. reflexivity.
Defined.

Lemma X9_witness :
  (run (silent_lib []) sample_proc stale_fs).1 = inr tt
  ∧ stdout (run (silent_lib []) sample_proc stale_fs).2
    = "Success: " +:+ pathlib.str (SCRIPT_DIR sample_proc // OUTPUT_FILE)
        +:+ " (" +:+ format_0f (true_div_1024 (st_size (RegFile png_1000)))
        +:+ " KB)" +:+ newline.
Proof.
  apply (X9_stale_artifact_reported_as_success (silent_lib []) sample_proc
           stale_fs []
           (render (silent_lib []) sample_proc (initial stale_fs)).2).
  - vm_compute. reflexivity.
  - vm_compute. reflexivity.
  - vm_compute. reflexivity.
Defined.

Lemma X10_witness :
  (∃ data text,
      crlf_fs !! pathlib.str (HTML_FILE sample_proc) = Some (RegFile data)
      ∧ utf8_decode data = Some text
      ∧ [97; 10; 98] = universal_newlines text)
  ∧ 13 ∉ [97; 10; 98].
Proof.
  apply (X10_renderer_receives_decoded_source (silent_lib []) sample_proc
           crlf_fs (render_config sample_proc) [97; 10; 98] OUTPUT_FILE).
  apply list_elem_of_lookup. exists 2%nat. vm_compute. reflexivity.
Defined.

Lemma X11_witness :
  [60; 112; 62; 104; 105; 60; 47; 112; 62; 10] = byte_val <$> sample_html.
Proof.
  apply (X11_ascii_source_passed_verbatim (silent_lib []) sample_proc sample_fs
           sample_html (render_config sample_proc)
           [60; 112; 62; 104; 105; 60; 47; 112; 62; 10] OUTPUT_FILE).
  - vm_compute. reflexivity.
  - repeat constructor; vm_compute; congruence.
  - apply list_elem_of_lookup. exists 2%nat. vm_compute. reflexivity.
Defined.

Lemma X12_witness :
  ∃ N, stdout (run (writing_lib png_1000) sample_proc sample_fs).2
       = "Success: " +:+ pathlib.str (SCRIPT_DIR sample_proc // OUTPUT_FILE)
           +:+ " (" +:+ pretty N +:+ " KB)" +:+ newline
     ∧ 0 ≤ N
     ∧ -1024 ≤ 1024 * N - st_size (RegFile png_1000) ≤ 1024.
Proof.
  apply (X12_reported_size_within_one_kilobyte (writing_lib png_1000)
           sample_proc sample_fs [sample_png_name]
           (render (writing_lib png_1000) sample_proc (initial sample_fs)).2).
  - vm_compute. reflexivity.
  - vm_compute. reflexivity.
  - vm_compute. reflexivity.
Defined.

Lemma X13_witness :
  stdout (run (writing_lib []) sample_proc sample_fs).2
  = "Success: " +:+ pathlib.str (SCRIPT_DIR sample_proc // OUTPUT_FILE)
      +:+ " (0 KB)" +:+ newline.
Proof.
  apply (X13_small_file_reported_as_zero_kb (writing_lib []) sample_proc
           sample_fs [sample_png_name]
           (render (writing_lib []) sample_proc (initial sample_fs)).2
           (RegFile [])).
  - vm_compute. reflexivity.
  - vm_compute. reflexivity.
  - vm_compute. reflexivity.
  - vm_compute. discriminate.
Defined.

Lemma X14_witness :
  round_0f (true_div_1024 1000) ≤ round_0f (true_div_1024 2000).
Proof.
  apply (X14_reported_size_monotone 1000 2000).
  - lia.
  - vm_compute. reflexivity.
Defined.


Lemma X16_witness :
  run (writing_lib png_1000)
    {| file__ := file__ sample_proc; getcwd := "/tmp" |} sample_fs
  = run (writing_lib png_1000)
      {| file__ := file__ sample_proc; getcwd := "/home/user" |} sample_fs.
Proof.
  apply (X16_run_independent_of_working_directory (writing_lib png_1000)
           (file__ sample_proc) "/tmp" "/home/user" sample_fs).
  vm_compute. reflexivity.
Defined.
